(** * Verification of the SATWNDBUFR pre-QC, classification and aggregation code

    Shallow embedding of [src/python_bufr/process_satwnds_dependencies.py]
    (the per-tank [pre_qc] screens, the generating-application column
    resolution of the JMA tanks, the preQC / observationType vectors) and of
    the tank loop of [src/python_bufr/extract_bulk_stats.py].

    Numeric vectors (numpy float64 arrays) are modelled as lists of exact
    rationals [Q]; every threshold of the code (68., 90, 100, 15000., 0.04,
    0.9, 0.1, ...) is the same decimal literal in [Q].  Index vectors
    ([np.arange], [np.where], [np.setdiff1d]) are lists of [nat]. *)

From Stdlib Require Import String.
From Stdlib Require Import List Arith Lia QArith Sorting.Sorted Permutation.
Import ListNotations.

(* ------------------------------------------------------------------ *)
(** ** The numpy operations used by the code *)

Module NumPy.

(** Insertion of [x] into a list sorted by [<=]. *)
Fixpoint insert (x : nat) (l : list nat) : list nat :=
  match l with
  | [] => [x]
  | y :: l' => if x <=? y then x :: y :: l' else y :: insert x l'
  end.

Fixpoint sort (l : list nat) : list nat :=
  match l with
  | [] => []
  | x :: l' => insert x (sort l')
  end.

(** Removal of adjacent duplicates of a sorted list. *)
Fixpoint dedup_adj (l : list nat) : list nat :=
  match l with
  | [] => []
  | x :: l' =>
      match l' with
      | [] => [x]
      | y :: _ => if x =? y then dedup_adj l' else x :: dedup_adj l'
      end
  end.

(** [np.unique]: sorted unique values. *)
Definition unique (l : list nat) : list nat := dedup_adj (sort l).

(** [np.isin] / [np.in1d] membership test on index arrays. *)
Definition mem (x : nat) (l : list nat) : bool := existsb (Nat.eqb x) l.

(** [np.setdiff1d(ar1, ar2)]: the unique values of [ar1] not in [ar2]. *)
Definition setdiff1d (ar1 ar2 : list nat) : list nat :=
  filter (fun x => negb (mem x ar2)) (unique ar1).

(** [np.arange(n)]. *)
Definition arange (n : nat) : list nat := seq 0 n.

(** [np.where(mask)] on a 1-D boolean array: the indices where it holds. *)
Fixpoint where_from (k : nat) (mask : list bool) : list nat :=
  match mask with
  | [] => []
  | b :: m => if b then k :: where_from (S k) m else where_from (S k) m
  end.

Definition where_ (mask : list bool) : list nat := where_from 0 mask.

End NumPy.

Import NumPy.

(* ------------------------------------------------------------------ *)
(** ** The body shared by every [pre_qc]

    Each check of a [pre_qc] reads
<<
        checkPass = np.where(<mask>)
        checkFail = np.setdiff1d(idxAll, checkPass)
        idxPass = np.setdiff1d(idxPass, checkFail)
>>
    and the function ends with [idxFail = np.setdiff1d(idxAll, idxPass)]. *)

Definition qc_step (idxAll idxPass : list nat) (mask : list bool) : list nat :=
  let checkPass := where_ mask in
  let checkFail := setdiff1d idxAll checkPass in
  setdiff1d idxPass checkFail.

(** The fail set of one check, as the code computes [checkFail]. *)
Definition check_fail (n : nat) (mask : list bool) : list nat :=
  setdiff1d (arange n) (where_ mask).

(** [pre_qc] with its checks given as the list of their masks, in source
    order; [n] is [np.size] of the first argument of [pre_qc]. *)
Definition pre_qc_masks (n : nat) (masks : list (list bool)) : list nat * list nat :=
  let idxAll := arange n in
  let idxPass := fold_left (qc_step idxAll) masks idxAll in
  let idxFail := setdiff1d idxAll idxPass in
  (idxPass, idxFail).

(* ------------------------------------------------------------------ *)
(** ** Elementwise numeric helpers *)

Open Scope Q_scope.

(** [a > b] on floats, as numpy evaluates it. *)
Definition gtb (a b : Q) : bool := negb (Qle_bool a b).

(** [v[idx]] (fancy indexing); every index used below is in range. *)
Definition take_idx (v : list Q) (idx : list nat) : list Q :=
  map (fun i => nth i v 0) idx.

(** [v[i] = x]. *)
Fixpoint set_nth (v : list Q) (i : nat) (x : Q) : list Q :=
  match v, i with
  | [], _ => []
  | _ :: v', O => x :: v'
  | y :: v', S i' => y :: set_nth v' i' x
  end.

(** [v[idx] = vals]. *)
Fixpoint assign_idx (v : list Q) (idx : list nat) (vals : list Q) : list Q :=
  match idx, vals with
  | i :: idx', x :: vals' => assign_idx (set_nth v i x) idx' vals'
  | _, _ => v
  end.

(** [np.divide(a, b)], elementwise. *)
Definition np_divide (a b : list Q) : list Q :=
  map (fun '(x, y) => x / y) (combine a b).

(* ------------------------------------------------------------------ *)
(** ** The individual checks of the [pre_qc] functions *)

(** zenith angle check: [angMax = 68.], [checkPass = np.where(zen <= angMax)]. *)
Definition angMax : Q := 68.
Definition zen_mask (zen : list Q) : list bool :=
  map (fun z => Qle_bool z angMax) zen.

(** quality indicator check: [np.where((qin >= qiMin) & (qin <= qiMax))]. *)
Definition qi_mask (qiMin qiMax : Q) (qin : list Q) : list bool :=
  map (fun q => Qle_bool qiMin q && Qle_bool q qiMax) qin.

(** pressure check: [np.where(pre >= preMin)]. *)
Definition pre_mask (preMin : Q) (pre : list Q) : list bool :=
  map (fun p => Qle_bool preMin p) pre.

(** banded pressure check of NC005034: [np.where((pre >= preMin) & (pre <= preMax))]. *)
Definition pre_band_mask (preMin preMax : Q) (pre : list Q) : list bool :=
  map (fun p => Qle_bool preMin p && Qle_bool p preMax) pre.

(** coefficient of variation check: [covMin = 0.04], [covMax = 0.50]. *)
Definition cov_mask (cov : list Q) : list bool :=
  map (fun c => Qle_bool 0.04 c && Qle_bool c 0.50) cov.

(** [speedExists = np.where(spd > 0.1)]. *)
Definition speed_exists (spd : list Q) : list nat :=
  where_ (map (fun s => gtb s 0.1) spd).

(** The divisors handed to [np.divide]: [spd[speedExists]]. *)
Definition ee_divisors (spd : list Q) : list Q :=
  take_idx spd (speed_exists spd).

(** exp-errnorm check:
<<
        expErrNorm = 100. * np.ones(np.size(exp,))
        speedExists = np.where(spd > 0.1)
        expErrNorm[speedExists] = np.divide(10 - 0.1*exp[speedExists], spd[speedExists])
>> *)
Definition exp_err_norm (spd exp : list Q) : list Q :=
  let expErrNorm := repeat 100 (length exp) in
  let speedExists := speed_exists spd in
  assign_idx expErrNorm speedExists
    (np_divide (map (fun e => 10 - 0.1 * e) (take_idx exp speedExists))
               (ee_divisors spd)).

(** [eeMax = 0.9], [checkPass = np.where(expErrNorm <= eeMax)]. *)
Definition ee_mask (spd exp : list Q) : list bool :=
  map (fun e => Qle_bool e 0.9) (exp_err_norm spd exp).

(** wind computation method check: [wcmExcludeList = [5]],
    [np.where(np.isin(wcm, wcmExcludeList)==False)]. *)
Definition wcmExcludeList : list Q := [5].
Definition wcm_mask (wcm : list Q) : list bool :=
  map (fun w => negb (existsb (Qeq_bool w) wcmExcludeList)) wcm.

(* ------------------------------------------------------------------ *)
(** ** The [pre_qc] of each tank *)

(** process_NC005030.pre_qc (identical in process_NC005039). *)
Definition pre_qc_NC005030 (pre spd zen qin cov exp : list Q) : list nat * list nat :=
  pre_qc_masks (length pre)
    [zen_mask zen; qi_mask 90 100 qin; pre_mask 15000 pre; cov_mask cov; ee_mask spd exp].

(** process_NC005031.pre_qc: no coefficient of variation check. *)
Definition pre_qc_NC005031 (pre spd zen qin exp : list Q) : list nat * list nat :=
  pre_qc_masks (length pre)
    [zen_mask zen; qi_mask 90 100 qin; pre_mask 15000 pre; ee_mask spd exp].

(** process_NC005032.pre_qc: [preMin = 70000]. *)
Definition pre_qc_NC005032 (pre spd zen qin cov exp : list Q) : list nat * list nat :=
  pre_qc_masks (length pre)
    [zen_mask zen; qi_mask 90 100 qin; pre_mask 70000 pre; cov_mask cov; ee_mask spd exp].

(** process_NC005034.pre_qc: [preMin = 15000.], [preMax = 30000.]. *)
Definition pre_qc_NC005034 (pre spd zen qin cov exp : list Q) : list nat * list nat :=
  pre_qc_masks (length pre)
    [zen_mask zen; qi_mask 90 100 qin; pre_band_mask 15000 30000 pre; cov_mask cov;
     ee_mask spd exp].

(** process_NC005039.pre_qc. *)
Definition pre_qc_NC005039 (pre spd zen qin cov exp : list Q) : list nat * list nat :=
  pre_qc_masks (length pre)
    [zen_mask zen; qi_mask 90 100 qin; pre_mask 15000 pre; cov_mask cov; ee_mask spd exp].

(** process_NC005044.pre_qc (identical in NC005045, NC005046, NC005067,
    NC005068 and NC005069): [qiMin = 85]. *)
Definition pre_qc_NC005044 (zen qin wcm : list Q) : list nat * list nat :=
  pre_qc_masks (length zen) [zen_mask zen; qi_mask 85 100 qin; wcm_mask wcm].

(** The tanks that have a [pre_qc]. *)
Inductive qc_tank :=
  | NC005030 | NC005031 | NC005032 | NC005034 | NC005039
  | NC005044 | NC005045 | NC005046 | NC005067 | NC005068 | NC005069.

(** The pre-QC inputs of one extraction call. *)
Record qc_inputs := {
  pressure : list Q;
  windSpeed : list Q;
  zenithAngle : list Q;
  qualityIndicator : list Q;
  coefficientOfVariation : list Q;
  expectedError : list Q;
  windComputationMethod : list Q
}.

(** The call [idxPass, idxFail = pre_qc(...)] made by each [process_<tank>]. *)
Definition screen (t : qc_tank) (i : qc_inputs) : list nat * list nat :=
  match t with
  | NC005030 => pre_qc_NC005030 (pressure i) (windSpeed i) (zenithAngle i)
                  (qualityIndicator i) (coefficientOfVariation i) (expectedError i)
  | NC005031 => pre_qc_NC005031 (pressure i) (windSpeed i) (zenithAngle i)
                  (qualityIndicator i) (expectedError i)
  | NC005032 => pre_qc_NC005032 (pressure i) (windSpeed i) (zenithAngle i)
                  (qualityIndicator i) (coefficientOfVariation i) (expectedError i)
  | NC005034 => pre_qc_NC005034 (pressure i) (windSpeed i) (zenithAngle i)
                  (qualityIndicator i) (coefficientOfVariation i) (expectedError i)
  | NC005039 => pre_qc_NC005039 (pressure i) (windSpeed i) (zenithAngle i)
                  (qualityIndicator i) (coefficientOfVariation i) (expectedError i)
  | NC005044 | NC005045 | NC005046 | NC005067 | NC005068 | NC005069 =>
      pre_qc_NC005044 (zenithAngle i) (qualityIndicator i) (windComputationMethod i)
  end.

(** [np.size] of the first argument of each [pre_qc], i.e. [N]. *)
Definition qc_nobs (t : qc_tank) (i : qc_inputs) : nat :=
  match t with
  | NC005030 | NC005031 | NC005032 | NC005034 | NC005039 => length (pressure i)
  | _ => length (zenithAngle i)
  end.

(** The masks of the checks of each [pre_qc], in source order. *)
Definition qc_masks (t : qc_tank) (i : qc_inputs) : list (list bool) :=
  match t with
  | NC005030 | NC005039 =>
      [zen_mask (zenithAngle i); qi_mask 90 100 (qualityIndicator i);
       pre_mask 15000 (pressure i); cov_mask (coefficientOfVariation i);
       ee_mask (windSpeed i) (expectedError i)]
  | NC005031 =>
      [zen_mask (zenithAngle i); qi_mask 90 100 (qualityIndicator i);
       pre_mask 15000 (pressure i); ee_mask (windSpeed i) (expectedError i)]
  | NC005032 =>
      [zen_mask (zenithAngle i); qi_mask 90 100 (qualityIndicator i);
       pre_mask 70000 (pressure i); cov_mask (coefficientOfVariation i);
       ee_mask (windSpeed i) (expectedError i)]
  | NC005034 =>
      [zen_mask (zenithAngle i); qi_mask 90 100 (qualityIndicator i);
       pre_band_mask 15000 30000 (pressure i); cov_mask (coefficientOfVariation i);
       ee_mask (windSpeed i) (expectedError i)]
  | _ =>
      [zen_mask (zenithAngle i); qi_mask 85 100 (qualityIndicator i);
       wcm_mask (windComputationMethod i)]
  end.

(** Spec reference for the screen (section 4.2): every check's fail set is
    taken against the full index set and
    [pass = allIndices \ union(failSets)]. *)
Definition pass_ref (n : nat) (masks : list (list bool)) : list nat :=
  let allIndices := arange n in
  let failSets := map (fun m => setdiff1d allIndices (where_ m)) masks in
  filter (fun i => negb (mem i (concat failSets))) allIndices.

(* ------------------------------------------------------------------ *)
(** ** Python exceptions and array truth values *)

Inductive py_exn :=
  | ValueError
  | KeyError (k : string)
  | DataUnavailable
  | ConfigurationError.

(** Truth value of a numpy boolean array in an [if]: an array of one element
    is that element, an array of several elements raises [ValueError]
    ("truth value of an array with more than one element is ambiguous"), an
    empty array is false (with a DeprecationWarning). *)
Definition array_truth (bs : list bool) : py_exn + bool :=
  match bs with
  | [] => inr false
  | [b] => inr b
  | _ :: _ :: _ => inl ValueError
  end.

(** [np.unique] on the integer tag arrays. *)
Fixpoint insertZ (x : Z) (l : list Z) : list Z :=
  match l with
  | [] => [x]
  | y :: l' => if Z.leb x y then x :: y :: l' else y :: insertZ x l'
  end.

Fixpoint sortZ (l : list Z) : list Z :=
  match l with
  | [] => []
  | x :: l' => insertZ x (sortZ l')
  end.

Fixpoint dedupZ (l : list Z) : list Z :=
  match l with
  | [] => []
  | x :: l' =>
      match l' with
      | [] => [x]
      | y :: _ => if Z.eqb x y then dedupZ l' else x :: dedupZ l'
      end
  end.

Definition uniqueZ (l : list Z) : list Z := dedupZ (sortZ l).

(** [y[:,i]] on an [(nobs, k)] array stored by rows. *)
Definition columnZ (y : list (list Z)) (i : nat) : list Z :=
  map (fun row => nth i row 0%Z) y.
Definition columnQ (x : list (list Q)) (i : nat) : list Q :=
  map (fun row => nth i row 0) x.

(* ------------------------------------------------------------------ *)
(** ** Generating-application column resolution of NC005044/45/46

<<
            z = 1.0E+10 * np.ones((np.shape(x)[0],))
            ...
            y = resultSubSet.get('generatingApplication')
            for i in range(3):
                if np.unique(y[:,i].squeeze()) == 102:
                    z[:] = x[:,i].squeeze()
            qualityIndicator = np.append(qualityIndicator, z)
>>
    [x] is the [(nobs,3)] PCCF array, [y] the [(nobs,3)] GNAP array. *)

Definition qi_missing : Q := 1.0e10.

Fixpoint resolve_loop (x : list (list Q)) (y : list (list Z)) (idx : list nat)
    (z : list Q) : py_exn + list Q :=
  match idx with
  | [] => inr z
  | i :: idx' =>
      match array_truth (map (Z.eqb 102) (uniqueZ (columnZ y i))) with
      | inl e => inl e
      | inr true => resolve_loop x y idx' (columnQ x i)
      | inr false => resolve_loop x y idx' z
      end
  end.

Definition resolve_qualityIndicator (x : list (list Q)) (y : list (list Z)) : py_exn + list Q :=
  resolve_loop x y (seq 0 3) (repeat qi_missing (length x)).

(* ------------------------------------------------------------------ *)
(** ** preQC and observationType of the zero-check tank NC005080

<<
    preQC = np.ones((np.size(windComputationMethod),), dtype='int')
    obType = -1 * np.ones(np.shape(preQC), dtype='int')
    obType[np.where(windComputationMethod == 1)] = 244  # IR
>> *)

(** [arr[np.where(mask)] = v]. *)
Definition mask_assign (arr : list Z) (mask : list bool) (v : Z) : list Z :=
  map (fun (p : Z * bool) => if snd p then v else fst p) (combine arr mask).

Definition process_NC005080_qc (windComputationMethod : list Q) : list Z * list Z :=
  let preQC := repeat 1%Z (length windComputationMethod) in
  let obType := repeat (-1)%Z (length preQC) in
  let obType := mask_assign obType (map (fun w => Qeq_bool w 1) windComputationMethod) 244 in
  (preQC, obType).

(* ------------------------------------------------------------------ *)
(** ** The tank loop of extract_bulk_stats.py *)

Module Aggregator.

(** The module-level accumulator arrays and the printed diagnostics. *)
Record agg := mkAgg {
  obLat : list Q; obLon : list Q; obPre : list Q; obSpd : list Q;
  obDir : list Q; obYr : list Q; obMon : list Q; obDay : list Q;
  obHr : list Q; obMin : list Q; obTyp : list Q; obPQC : list Q;
  stdout : list string
}.

Inductive field :=
  | FLat | FLon | FPre | FSpd | FDir | FYr | FMon | FDay | FHr | FMin | FTyp | FPQC.

Definition get_field (f : field) (s : agg) : list Q :=
  match f with
  | FLat => obLat s | FLon => obLon s | FPre => obPre s | FSpd => obSpd s
  | FDir => obDir s | FYr => obYr s | FMon => obMon s | FDay => obDay s
  | FHr => obHr s | FMin => obMin s | FTyp => obTyp s | FPQC => obPQC s
  end.

(** Rebinding of one global: [obX = <v>]. *)
Definition set_field (f : field) (v : list Q) (s : agg) : agg :=
  let 'mkAgg a b c d e g h i j k l m o := s in
  match f with
  | FLat => mkAgg v b c d e g h i j k l m o
  | FLon => mkAgg a v c d e g h i j k l m o
  | FPre => mkAgg a b v d e g h i j k l m o
  | FSpd => mkAgg a b c v e g h i j k l m o
  | FDir => mkAgg a b c d v g h i j k l m o
  | FYr => mkAgg a b c d e v h i j k l m o
  | FMon => mkAgg a b c d e g v i j k l m o
  | FDay => mkAgg a b c d e g h v j k l m o
  | FHr => mkAgg a b c d e g h i v k l m o
  | FMin => mkAgg a b c d e g h i j v l m o
  | FTyp => mkAgg a b c d e g h i j k v m o
  | FPQC => mkAgg a b c d e g h i j k l v o
  end.

(** Every accumulator array starts as [np.asarray([])]. *)
Definition agg_init : agg :=
  mkAgg [] [] [] [] [] [] [] [] [] [] [] [] [].

(** Python statements over the globals: an exception leaves the globals as
    they were when it was raised. *)
Definition M (A : Type) : Type := agg -> (py_exn + A) * agg.

Definition ret {A} (a : A) : M A := fun s => (inr a, s).
Definition bind {A B} (c : M A) (k : A -> M B) : M B :=
  fun s => match c s with
           | (inl e, s') => (inl e, s')
           | (inr a, s') => k a s'
           end.
Definition raise {A} (e : py_exn) : M A := fun s => (inl e, s).
Definition lift {A} (r : py_exn + A) : M A :=
  match r with inl e => raise e | inr a => ret a end.

(** [try: body  except: handler] (a bare [except] catches every exception). *)
Definition try_except {A} (body : M A) (handler : M A) : M A :=
  fun s => match body s with
           | (inl _, s') => handler s'
           | (inr a, s') => (inr a, s')
           end.

Definition print (msg : string) : M unit :=
  fun s => (inr tt, let 'mkAgg a b c d e g h i j k l m o := s in
                    mkAgg a b c d e g h i j k l m (o ++ [msg])).

Notation "x <- c1 ;; c2" := (bind c1 (fun x => c2))
  (at level 61, c1 at next level, right associativity).
Notation "c1 ;; c2" := (bind c1 (fun _ => c2))
  (at level 61, right associativity).

(** A returned [outputDict]: variable name to vector. *)
Definition Dict : Type := list (string * list Q).

(** [amvDict[k]]. *)
Definition dict_get (d : Dict) (k : string) : M (list Q) :=
  match find (fun p => String.eqb (fst p) k) d with
  | Some p => ret (snd p)
  | None => raise (KeyError k)
  end.

(** [obX = np.append(obX, amvDict[k])]. *)
Definition append_from (d : Dict) (fk : field * string) : M unit :=
  x <- dict_get d (snd fk) ;;
  fun s => (inr tt, set_field (fst fk) (get_field (fst fk) s ++ x) s).

Fixpoint append_all (d : Dict) (l : list (field * string)) : M unit :=
  match l with
  | [] => ret tt
  | fk :: l' => append_from d fk ;; append_all d l'
  end.

(** The twelve appends of the [try] block, in source order. *)
Definition amv_fields : list (field * string) :=
  [(FLat, "latitude"); (FLon, "longitude"); (FPre, "pressure");
   (FSpd, "windSpeed"); (FDir, "windDirection"); (FYr, "year");
   (FMon, "month"); (FDay, "day"); (FHr, "hour"); (FMin, "minute");
   (FTyp, "observationType"); (FPQC, "preQC")]%string.

Definition bufrFileName : string := "./gdas.t00z.satwnd.tm00.bufr_d".

(** [outDict] built for each tank. *)
Definition outDict (tankName : string) : list (string * string) :=
  map (fun '(q, v) => (String.append tankName q, v))
    [("/CLAT", "latitude"); ("/CLON", "longitude"); ("/PRLC", "pressure");
     ("/WSPD", "windSpeed"); ("/WDIR", "windDirection"); ("/YEAR", "year");
     ("/MNTH", "month"); ("/DAYS", "day"); ("/HOUR", "hour"); ("/MINU", "minute")]%string.

Definition tankNameList : list string :=
  ["NC005030"; "NC005031"; "NC005032"; "NC005034"; "NC005039"; "NC005044";
   "NC005045"; "NC005046"; "NC005067"; "NC005068"; "NC005069"; "NC005070";
   "NC005071"; "NC005072"; "NC005080"; "NC005081"; "NC005091"]%string.

Section Loop.

(** [process_satwnds_dependencies.process_satwnd_tank(tankName, bufrFileName, outDict)]. *)
Variable process_satwnd_tank : string -> string -> list (string * string) -> py_exn + Dict.

(** One iteration of [for tankName in tankNameList]. *)
Definition processing_msg (tankName : string) : string :=
  String.append "processing " tankName.
Definition warning_msg (tankName : string) : string :=
  String.append "warning: " (String.append tankName " was not processed due to errors").

Definition tank_iteration (tankName : string) : M unit :=
  print (processing_msg tankName) ;;
  try_except
    (amvDict <- lift (process_satwnd_tank tankName bufrFileName (outDict tankName)) ;;
     append_all amvDict amv_fields)
    (print (warning_msg tankName)).

Fixpoint tank_loop (l : list string) : M unit :=
  match l with
  | [] => ret tt
  | t :: l' => tank_iteration t ;; tank_loop l'
  end.

End Loop.

(** The globals after printing [msgs]. *)
Definition with_stdout (s : agg) (msgs : list string) : agg :=
  let 'mkAgg a b c d e g h i j k l m o := s in
  mkAgg a b c d e g h i j k l m (o ++ msgs).

(** A stand-in extraction for concrete runs: every tank returns one
    observation with every requested field. *)
Definition demo_dict : Dict :=
  map (fun k => (k, [1])) (map snd amv_fields).
Definition demo_process (tankName bufrFile : string) (returnDict : list (string * string))
    : py_exn + Dict :=
  inr demo_dict.

(** Modelled from the spec: [process_satwnds_dependencies.process_satwnd_tank],
    which the loop calls but which is absent from src/.  Section 4.1: an
    unknown variant identifier fails with a Configuration error; a known one
    (a tank with a [process_<tank>] function in
    process_satwnds_dependencies.py) runs that tank's extraction. *)
Definition known_tanks : list string :=
  ["NC005030"; "NC005031"; "NC005032"; "NC005034"; "NC005039"; "NC005044";
   "NC005045"; "NC005046"; "NC005067"; "NC005068"; "NC005069"; "NC005070";
   "NC005071"; "NC005080"; "NC005081"; "NC005090"; "NC005091"]%string.

Definition process_satwnd_tank_spec
    (process_tank : string -> string -> list (string * string) -> py_exn + Dict)
    (tankName bufrFile : string) (returnDict : list (string * string)) : py_exn + Dict :=
  if existsb (String.eqb tankName) known_tanks
  then process_tank tankName bufrFile returnDict
  else inl ConfigurationError.

End Aggregator.

(** Inputs of the zenith-angle scenario of spec section 8: zenith angles
    [10,70,30,68,90] and every other signal passing its check. *)
Definition zen_scenario (t : qc_tank) : qc_inputs :=
  {| pressure := repeat (match t with NC005032 => 80000 | _ => 20000 end) 5;
     windSpeed := repeat 20 5;
     zenithAngle := [10; 70; 30; 68; 90];
     qualityIndicator := repeat 95 5;
     coefficientOfVariation := repeat 0.1 5;
     expectedError := repeat 0 5;
     windComputationMethod := repeat 1 5 |}.

(** An index passes every check: it is in every [checkPass]. *)
Definition passes_all (masks : list (list bool)) (i : nat) : bool :=
  forallb (fun m => mem i (where_ m)) masks.

(* ------------------------------------------------------------------ *)
(** ** preQC and observationType vectors of the tanks with a [pre_qc] *)

(** [v[i] = x] on an int array. *)
Fixpoint set_nthZ (v : list Z) (i : nat) (x : Z) : list Z :=
  match v, i with
  | [], _ => []
  | _ :: v', O => x :: v'
  | y :: v', S i' => y :: set_nthZ v' i' x
  end.

(** [v[idx] = x]. *)
Definition fill_idx (v : list Z) (idx : list nat) (x : Z) : list Z :=
  fold_left (fun acc i => set_nthZ acc i x) idx v.

(** [preQC = -1 * np.ones((np.size(idxPass) + np.size(idxFail),), dtype='int')],
    [preQC[idxPass] = 1]. *)
Definition preQC_vector (idxPass idxFail : list nat) : list Z :=
  fill_idx (repeat (-1)%Z (length idxPass + length idxFail)) idxPass 1%Z.

(** [obType[np.where(mask)] = v]. *)
Definition where_assign (obType : list Z) (mask : list bool) (v : Z) : list Z :=
  fill_idx obType (where_ mask) v.

(** process_NC005044 (identical in NC005045 and NC005046):
<<
    obType = -1 * np.ones(np.shape(preQC), dtype='int')
    obType[np.where(windComputationMethod == 1)] = 252  # IR
    obType[np.where(windComputationMethod == 2)] = 242  # VIS
    obType[np.where(windComputationMethod == 3)] = 250  # WVCT
    obType[np.where(windComputationMethod >= 4)] = 250  # WVDL
>> *)
Definition obType_NC005044 (preQC : list Z) (windComputationMethod : list Q) : list Z :=
  let obType := repeat (-1)%Z (length preQC) in
  let obType := where_assign obType (map (fun w => Qeq_bool w 1) windComputationMethod) 252 in
  let obType := where_assign obType (map (fun w => Qeq_bool w 2) windComputationMethod) 242 in
  let obType := where_assign obType (map (fun w => Qeq_bool w 3) windComputationMethod) 250 in
  where_assign obType (map (fun w => Qle_bool 4 w) windComputationMethod) 250.

(** process_NC005067 (identical in NC005068 and NC005069): codes 253 (IR),
    243 (VIS), 254 (WVCT and WVDL). *)
Definition obType_NC005067 (preQC : list Z) (windComputationMethod : list Q) : list Z :=
  let obType := repeat (-1)%Z (length preQC) in
  let obType := where_assign obType (map (fun w => Qeq_bool w 1) windComputationMethod) 253 in
  let obType := where_assign obType (map (fun w => Qeq_bool w 2) windComputationMethod) 243 in
  let obType := where_assign obType (map (fun w => Qeq_bool w 3) windComputationMethod) 254 in
  where_assign obType (map (fun w => Qle_bool 4 w) windComputationMethod) 254.

(** process_NC005070 (identical in NC005071): no pre-QC, and
<<
    preQC = np.ones((np.size(windComputationMethod),), dtype='int')
    obType = -1 * np.ones(np.shape(preQC), dtype='int')
    obType[np.where(windComputationMethod == 1)] = 257  # IR
    obType[np.where(windComputationMethod == 3)] = 258  # WVCT
    obType[np.where(windComputationMethod >= 4)] = 259  # WVDL
>> *)
Definition process_NC005070_qc (windComputationMethod : list Q) : list Z * list Z :=
  let preQC := repeat 1%Z (length windComputationMethod) in
  let obType := repeat (-1)%Z (length preQC) in
  let obType := where_assign obType (map (fun w => Qeq_bool w 1) windComputationMethod) 257 in
  let obType := where_assign obType (map (fun w => Qeq_bool w 3) windComputationMethod) 258 in
  let obType := where_assign obType (map (fun w => Qle_bool 4 w) windComputationMethod) 259 in
  (preQC, obType).

(* ------------------------------------------------------------------ *)
(** ** The per-type report of extract_bulk_stats.py

<<
for t in np.unique(obTyp):
    i = np.where(obTyp==t)
    n = np.size(i)
    p = np.size(np.where(obPQC[i]==1.))
    f = np.size(np.where(obPQC[i]==-1.))
>> *)

Fixpoint insertQ (x : Q) (l : list Q) : list Q :=
  match l with
  | [] => [x]
  | y :: l' => if Qle_bool x y then x :: y :: l' else y :: insertQ x l'
  end.

Fixpoint sortQ (l : list Q) : list Q :=
  match l with
  | [] => []
  | x :: l' => insertQ x (sortQ l')
  end.

Fixpoint dedupQ (l : list Q) : list Q :=
  match l with
  | [] => []
  | x :: l' =>
      match l' with
      | [] => [x]
      | y :: _ => if Qeq_bool x y then dedupQ l' else x :: dedupQ l'
      end
  end.

(** [np.unique] on a float array. *)
Definition uniqueQ (l : list Q) : list Q := dedupQ (sortQ l).

(** [(n, p, f)] for the type [t]. *)
Definition type_counts (obTyp obPQC : list Q) (t : Q) : nat * nat * nat :=
  let i := where_ (map (fun x => Qeq_bool x t) obTyp) in
  let sel := take_idx obPQC i in
  (length i,
   length (where_ (map (fun x => Qeq_bool x 1) sel)),
   length (where_ (map (fun x => Qeq_bool x (-1)) sel))).

Definition type_report (obTyp obPQC : list Q) : list (Q * (nat * nat * nat)) :=
  map (fun t => (t, type_counts obTyp obPQC t)) (uniqueQ obTyp).

(* ------------------------------------------------------------------ *)
(** ** Lookups in a returned [outputDict] *)

(** The value [amvDict[k]] evaluates to, if the key is present. *)
Definition dict_lookup (d : Aggregator.Dict) (k : string) : option (list Q) :=
  option_map snd (find (fun p => String.eqb (fst p) k) d).

(* ------------------------------------------------------------------ *)
(** ** The extraction loops of process_NC005030 and process_NC005080 *)

Module Extraction.

(** A Python dict with string keys, in insertion order. *)
Definition pydict (V : Type) : Type := list (string * V).

(** [d[k] = v]: an existing key keeps its position, a new one goes last. *)
Fixpoint setitem {V} (d : pydict V) (k : string) (v : V) : pydict V :=
  match d with
  | [] => [(k, v)]
  | (k', v') :: d' => if String.eqb k' k then (k, v) :: d' else (k', v') :: setitem d' k v
  end.

Definition getitem {V} (d : pydict V) (k : string) : option V :=
  option_map snd (find (fun p => String.eqb (fst p) k) d).

(** [d.update(e)]. *)
Definition update {V} (d e : pydict V) : pydict V :=
  fold_left (fun acc p => setitem acc (fst p) (snd p)) e d.

(** [list(d.values())]. *)
Definition values {V} (d : pydict V) : list V := map snd d.

(** An array returned by [resultSet.get]: one-dimensional, or
    two-dimensional stored by rows. *)
Inductive ndarray :=
  | Vec (v : list Q)
  | Mat (rows : list (list Q)).

(** [np.append(a, x)] appends the flattened [x]. *)
Definition flat (x : ndarray) : list Q :=
  match x with
  | Vec v => v
  | Mat rows => concat rows
  end.

(** [x[:,j].squeeze()]: [None] where numpy raises [IndexError] (two indices
    on a one-dimensional array, or a column past the last one). *)
Definition col (x : ndarray) (j : nat) : option (list Q) :=
  match x with
  | Vec _ => None
  | Mat rows =>
      if forallb (fun r => Nat.ltb j (length r)) rows
      then Some (map (fun r => nth j r 0) rows) else None
  end.

(** [outputDict = {}; for varName in list(returnDict.values()): outputDict[varName] = np.asarray([])]. *)
Definition init_output (returnDict : pydict string) : pydict (list Q) :=
  fold_left (fun od v => setitem od v []) (values returnDict) [].

(** [if name in list(returnDict.values()): outputDict[name] = np.append(outputDict[name], x)];
    every value of [returnDict] is a key of [outputDict] from [init_output]
    on, so the lookup finds it. *)
Definition out_append (returnDict : pydict string) (name : string) (x : list Q)
    (od : pydict (list Q)) : pydict (list Q) :=
  if existsb (String.eqb name) (values returnDict)
  then setitem od name (match getitem od name with Some v => v | None => [] end ++ x)
  else od.

(** process_NC005030's [queryDict]. *)
Definition queryDict_NC005030 : pydict string :=
  [("NC005030/PRLC[1]", "pressure"); ("NC005030/WSPD", "windSpeed");
   ("NC005030/SAZA", "zenithAngle"); ("NC005030/AMVQIC/PCCF", "QIEE");
   ("NC005030/AMVIVR/CVWD", "coefficientOfVariation")]%string.

(** The local vectors of process_NC005030 and its [outputDict]. *)
Record st30 := mkSt30 {
  s_pressure : list Q; s_windSpeed : list Q; s_zenithAngle : list Q;
  s_qualityIndicator : list Q; s_expectedError : list Q;
  s_coefficientOfVariation : list Q; s_output : pydict (list Q)
}.

(** One pass of [for key in list(mergedDict.keys())], with
    [name = mergedDict[key]] and [x = resultSet.get(name)]. *)
Definition step30 (returnDict : pydict string) (get : string -> ndarray) (s : st30)
    (name : string) : option st30 :=
  let x := get name in
  let 'mkSt30 pre spd zen qin exp cov od := s in
  if String.eqb name "pressure" then
    Some (mkSt30 (pre ++ flat x) spd zen qin exp cov (out_append returnDict "pressure" (flat x) od))
  else if String.eqb name "windSpeed" then
    Some (mkSt30 pre (spd ++ flat x) zen qin exp cov (out_append returnDict "windSpeed" (flat x) od))
  else if String.eqb name "zenithAngle" then
    Some (mkSt30 pre spd (zen ++ flat x) qin exp cov (out_append returnDict "zenithAngle" (flat x) od))
  else if String.eqb name "QIEE" then
    match col x 1, col x 3 with
    | Some c1, Some c3 =>
        Some (mkSt30 pre spd zen (qin ++ c1) (exp ++ c3) cov
                (out_append returnDict "expectedError" c3
                   (out_append returnDict "qualityIndicator" c1 od)))
    | _, _ => None
    end
  else if String.eqb name "coefficientOfVariation" then
    match col x 0 with
    | Some c0 =>
        Some (mkSt30 pre spd zen qin exp (cov ++ c0)
                (out_append returnDict "coefficientOfVariation" c0 od))
    | None => None
    end
  else Some (mkSt30 pre spd zen qin exp cov (out_append returnDict name (flat x) od)).

Fixpoint loop30 (returnDict : pydict string) (get : string -> ndarray)
    (merged : pydict string) (s : st30) : option st30 :=
  match merged with
  | [] => Some s
  | (_, name) :: rest =>
      match step30 returnDict get s name with
      | Some s' => loop30 returnDict get rest s'
      | None => None
      end
  end.

(** process_NC005030(bufrFileName, returnDict), with [get] standing for
    [resultSet.get] of the result set that [bufr_query] returns for
    [mergedDict]; [None] is an [IndexError] of the unpacking. *)
Definition process_NC005030 (returnDict : pydict string) (get : string -> ndarray)
    : option (pydict (list Q)) :=
  let mergedDict := update returnDict queryDict_NC005030 in
  match loop30 returnDict get mergedDict (mkSt30 [] [] [] [] [] [] (init_output returnDict)) with
  | None => None
  | Some (mkSt30 pre spd zen qin exp cov od) =>
      let '(idxPass, idxFail) := pre_qc_NC005030 pre spd zen qin cov exp in
      let preQC := preQC_vector idxPass idxFail in
      let od := setitem od "preQC" (map inject_Z preQC) in
      let obType := repeat 245%Z (length preQC) in
      Some (setitem od "observationType" (map inject_Z obType))
  end.

(** process_NC005080's loop: [windComputationMethod] is the only special
    name. *)
Definition step80 (returnDict : pydict string) (get : string -> ndarray)
    (s : list Q * pydict (list Q)) (name : string) : list Q * pydict (list Q) :=
  let x := get name in
  let '(wcm, od) := s in
  if String.eqb name "windComputationMethod" then
    (wcm ++ flat x, out_append returnDict "windComputationMethod" (flat x) od)
  else (wcm, out_append returnDict name (flat x) od).

Definition queryDict_NC005080 : pydict string :=
  [("NC005080/SWCM", "windComputationMethod")]%string.

Definition process_NC005080 (returnDict : pydict string) (get : string -> ndarray)
    : pydict (list Q) :=
  let mergedDict := update returnDict queryDict_NC005080 in
  let '(wcm, od) := fold_left (fun s p => step80 returnDict get s (snd p)) mergedDict
                              ([], init_output returnDict) in
  let '(preQC, obType) := process_NC005080_qc wcm in
  let od := setitem od "preQC" (map inject_Z preQC) in
  setitem od "observationType" (map inject_Z obType).

(** A stand-in result set for concrete runs: one observation, with a
    4-column PCCF row and a 2-column CVWD row. *)
Definition demo_get (name : string) : ndarray :=
  if String.eqb name "QIEE" then Mat [[0; 95; 0; 1]]
  else if String.eqb name "coefficientOfVariation" then Mat [[0.1; 0]]
  else if String.eqb name "pressure" then Vec [20000]
  else if String.eqb name "zenithAngle" then Vec [10]
  else Vec [7].

End Extraction.

(* ================================================================== *)
(** * Proofs *)

(** ** Index sets *)

Lemma mem_spec (x : nat) (l : list nat) : mem x l = true <-> In x l.
Proof.
  unfold mem. rewrite existsb_exists. split.
  - intros [y [Hy Heq]]. apply Nat.eqb_eq in Heq. subst. exact Hy.
  - intros H. exists x. split; [exact H | apply Nat.eqb_refl].
Qed.

Lemma insert_least (x : nat) (l : list nat) :
  Forall (fun y => (x < y)%nat) l -> insert x l = x :: l.
Proof.
  destruct l as [|y l']; simpl; [reflexivity|].
  intros H. inversion H; subst.
  replace (x <=? y)%nat with true; [reflexivity|].
  symmetry. apply Nat.leb_le. lia.
Qed.

Lemma sort_sorted (l : list nat) : StronglySorted lt l -> sort l = l.
Proof.
  induction 1 as [|a l Hs IH Hf]; simpl; [reflexivity|].
  rewrite IH. apply insert_least. exact Hf.
Qed.

Lemma dedup_adj_sorted (l : list nat) : StronglySorted lt l -> dedup_adj l = l.
Proof.
  induction 1 as [|a l Hs IH Hf]; simpl; [reflexivity|].
  destruct l as [|y l']; [reflexivity|].
  inversion Hf; subst.
  replace (a =? y)%nat with false.
  - rewrite IH. reflexivity.
  - symmetry. apply Nat.eqb_neq. lia.
Qed.

Lemma unique_sorted (l : list nat) : StronglySorted lt l -> unique l = l.
Proof.
  intros H. unfold unique. rewrite sort_sorted by exact H.
  apply dedup_adj_sorted. exact H.
Qed.

Lemma filter_sorted (f : nat -> bool) (l : list nat) :
  StronglySorted lt l -> StronglySorted lt (filter f l).
Proof.
  induction 1 as [|a l Hs IH Hf]; simpl; [constructor|].
  destruct (f a); [|exact IH].
  constructor; [exact IH|].
  apply Forall_forall. intros y Hy. apply filter_In in Hy.
  eapply Forall_forall in Hf; [exact Hf | tauto].
Qed.

Lemma seq_sorted (a n : nat) : StronglySorted lt (seq a n).
Proof.
  revert a. induction n as [|n IH]; intros a; simpl; constructor; [apply IH|].
  apply Forall_forall. intros y Hy. apply in_seq in Hy. lia.
Qed.

Lemma arange_sorted (n : nat) : StronglySorted lt (arange n).
Proof. apply seq_sorted. Qed.

Create HintDb idx.
#[local] Hint Resolve arange_sorted filter_sorted : idx.

Lemma setdiff1d_sorted (l b : list nat) :
  StronglySorted lt l -> setdiff1d l b = filter (fun x => negb (mem x b)) l.
Proof. intros H. unfold setdiff1d. rewrite unique_sorted by exact H. reflexivity. Qed.

Lemma filter_filter_and {A} (f g : A -> bool) (l : list A) :
  filter f (filter g l) = filter (fun x => g x && f x) l.
Proof.
  induction l as [|a l IH]; simpl; [reflexivity|].
  destruct (g a); simpl; [destruct (f a)|]; simpl; rewrite ?IH; reflexivity.
Qed.

Lemma filter_true_id {A} (l : list A) : filter (fun _ => true) l = l.
Proof. induction l as [|a l IH]; simpl; [|rewrite IH]; reflexivity. Qed.

(** Membership of an element of [l] in a filter of [l]. *)
Lemma mem_filter_in (f : nat -> bool) (l : list nat) (i : nat) :
  In i l -> mem i (filter f l) = f i.
Proof.
  intros Hi. destruct (f i) eqn:E.
  - apply mem_spec, filter_In. auto.
  - apply Bool.not_true_iff_false. rewrite mem_spec, filter_In.
    rewrite E. intros [_ H]. discriminate.
Qed.

Lemma where_from_spec (mask : list bool) (k j : nat) :
  In j (where_from k mask) <-> (k <= j)%nat /\ nth (j - k) mask false = true.
Proof.
  revert k. induction mask as [|b m IH]; intros k; simpl.
  - split; [tauto|]. intros [_ H]. destruct (j - k)%nat; discriminate.
  - destruct (Nat.eq_dec j k) as [->|Hne].
    + rewrite Nat.sub_diag. destruct b; simpl; rewrite ?IH.
      * split; [intros; split; auto | auto].
      * split; [intros [H _]; lia | intros [_ H]; discriminate].
    + destruct (Nat.lt_ge_cases j k) as [Hlt|Hge].
      * destruct b; simpl; rewrite ?IH;
          split; [intros [H|[H _]]; lia | intros [H _]; lia
                 | intros [H _]; lia | intros [H _]; lia].
      * replace (j - k)%nat with (S (j - S k)) by lia.
        destruct b; simpl; rewrite ?IH; split.
        -- intros [H|[_ H]]; [lia | split; [lia | exact H]].
        -- intros [_ H]. right. split; [lia | exact H].
        -- intros [_ H]. split; [lia | exact H].
        -- intros [_ H]. split; [lia | exact H].
Qed.

Lemma where_spec (mask : list bool) (j : nat) :
  In j (where_ mask) <-> nth j mask false = true.
Proof.
  unfold where_. rewrite where_from_spec. rewrite Nat.sub_0_r. split; [tauto | intros H; split; [lia | exact H]].
Qed.

Lemma qc_step_filter (n : nat) (P : nat -> bool) (m : list bool) :
  qc_step (arange n) (filter P (arange n)) m
  = filter (fun i => P i && mem i (where_ m)) (arange n).
Proof.
  unfold qc_step.
  rewrite (setdiff1d_sorted (arange n)) by auto with idx.
  rewrite setdiff1d_sorted by auto with idx.
  rewrite filter_filter_and. apply filter_ext_in. intros i Hi.
  rewrite mem_filter_in by exact Hi. rewrite Bool.negb_involutive. reflexivity.
Qed.

Lemma fold_qc_step (n : nat) (masks : list (list bool)) (P : nat -> bool) :
  fold_left (qc_step (arange n)) masks (filter P (arange n))
  = filter (fun i => P i && passes_all masks i) (arange n).
Proof.
  revert P. induction masks as [|m ms IH]; intros P; simpl.
  - apply filter_ext. intros i. rewrite Bool.andb_true_r. reflexivity.
  - rewrite qc_step_filter, IH. apply filter_ext. intros i.
    unfold passes_all. simpl. rewrite Bool.andb_assoc. reflexivity.
Qed.

(** [pre_qc] as two filters of [np.arange(N)]. *)
Lemma pre_qc_masks_filter (n : nat) (masks : list (list bool)) :
  pre_qc_masks n masks
  = (filter (passes_all masks) (arange n),
     filter (fun i => negb (passes_all masks i)) (arange n)).
Proof.
  unfold pre_qc_masks.
  pose proof (fold_qc_step n masks (fun _ => true)) as H.
  rewrite filter_true_id in H. rewrite H. simpl.
  rewrite setdiff1d_sorted by auto with idx.
  f_equal. apply filter_ext_in. intros i Hi.
  rewrite mem_filter_in by exact Hi. reflexivity.
Qed.

Lemma length_filter_split {A} (f : A -> bool) (l : list A) :
  (length (filter f l) + length (filter (fun x => negb (f x)) l))%nat = length l.
Proof.
  induction l as [|a l IH]; simpl; [reflexivity|].
  destruct (f a); simpl; lia.
Qed.

Lemma screen_masks (t : qc_tank) (inp : qc_inputs) :
  screen t inp = pre_qc_masks (qc_nobs t inp) (qc_masks t inp).
Proof. destruct t; reflexivity. Qed.

(** ** C1: the pass and fail sets partition the index range *)

(** C1. For every tank's [pre_qc] and all inputs, with [N] the number of
    observations ([np.size] of the vector [idxAll] is built from), the
    returned [idxPass] and [idxFail] are duplicate free and disjoint, their
    sizes sum to [N], and their union is exactly [0..N-1]. *)
Theorem screen_partition : forall (t : qc_tank) (inp : qc_inputs),
  let N := qc_nobs t inp in
  let idxPass := fst (screen t inp) in
  let idxFail := snd (screen t inp) in
  NoDup idxPass /\ NoDup idxFail /\
  (forall i, ~ (In i idxPass /\ In i idxFail)) /\
  (length idxPass + length idxFail)%nat = N /\
  (forall i, (i < N)%nat <-> In i idxPass \/ In i idxFail).
Proof.
  intros t inp N idxPass idxFail. subst idxPass idxFail.
  rewrite screen_masks, pre_qc_masks_filter. simpl. fold N.
  set (P := passes_all (qc_masks t inp)).
  assert (Hnd : NoDup (arange N)) by apply seq_NoDup.
  split; [apply NoDup_filter; exact Hnd|].
  split; [apply NoDup_filter; exact Hnd|].
  split.
  { intros i [H1 H2]. apply filter_In in H1, H2.
    destruct H1 as [_ H1]. destruct H2 as [_ H2]. rewrite H1 in H2. discriminate. }
  split.
  { rewrite length_filter_split. apply length_seq. }
  intros i. rewrite !filter_In. unfold arange. rewrite in_seq. split.
  - intros Hi. destruct (P i) eqn:E; [left | right]; split; auto; lia.
  - intros [[H _]|[H _]]; lia.
Qed.

(** ** C2: the sequence of subtractions is the set semantics *)

Lemma mem_app (i : nat) (a b : list nat) : mem i (a ++ b) = mem i a || mem i b.
Proof. unfold mem. apply existsb_app. Qed.

Lemma mem_union_fail_sets (n : nat) (masks : list (list bool)) (i : nat) :
  In i (arange n) ->
  mem i (concat (map (fun m => setdiff1d (arange n) (where_ m)) masks))
  = negb (passes_all masks i).
Proof.
  intros Hi. induction masks as [|m ms IH]; simpl; [reflexivity|].
  rewrite mem_app, IH. rewrite setdiff1d_sorted by auto with idx.
  rewrite mem_filter_in by exact Hi.
  unfold passes_all. simpl. rewrite Bool.negb_andb. reflexivity.
Qed.

Lemma passes_all_perm (masks masks' : list (list bool)) (i : nat) :
  Permutation masks masks' -> passes_all masks i = passes_all masks' i.
Proof.
  unfold passes_all. induction 1; simpl; try congruence.
  - rewrite !Bool.andb_assoc, (Bool.andb_comm (mem i (where_ y))). reflexivity.
Qed.

(** C2. For every tank's [pre_qc] and all inputs, the pass set produced by
    the code's successive [setdiff1d] subtractions equals the spec's set
    semantics [allIndices \ union(failSets)] with each fail set taken
    against the full index set; and running the same checks in any other
    order yields the same pass set. *)
Theorem screen_pass_set_semantics : forall (t : qc_tank) (inp : qc_inputs)
    (masks' : list (list bool)),
  Permutation (qc_masks t inp) masks' ->
  fst (screen t inp) = pass_ref (qc_nobs t inp) (qc_masks t inp) /\
  fst (pre_qc_masks (qc_nobs t inp) masks') = fst (screen t inp).
Proof.
  intros t inp masks' Hperm.
  rewrite screen_masks, !pre_qc_masks_filter. simpl. split.
  - unfold pass_ref. apply filter_ext_in. intros i Hi.
    rewrite mem_union_fail_sets by exact Hi.
    rewrite Bool.negb_involutive. reflexivity.
  - apply filter_ext. intros i. symmetry. apply passes_all_perm. exact Hperm.
Qed.

(** ** The individual checks *)

Lemma nth_map_in {A B} (f : A -> B) (l : list A) (i : nat) (d : A) (b : B) :
  (i < length l)%nat -> nth i (map f l) b = f (nth i l d).
Proof.
  intros H. rewrite nth_indep with (d' := f d) by (rewrite length_map; exact H).
  apply map_nth.
Qed.

(** Membership in [checkFail] of a check: in range and the mask is false. *)
Lemma in_check_fail (n : nat) (mask : list bool) (i : nat) :
  In i (check_fail n mask) <-> (i < n)%nat /\ nth i mask false = false.
Proof.
  unfold check_fail. rewrite setdiff1d_sorted by auto with idx.
  rewrite filter_In. unfold arange. rewrite in_seq.
  rewrite Bool.negb_true_iff, <- Bool.not_true_iff_false, mem_spec, where_spec.
  rewrite <- Bool.not_true_iff_false. split; intros [H1 H2]; split; auto; lia.
Qed.

Lemma Qle_bool_false (a b : Q) : Qle_bool a b = false <-> b < a.
Proof.
  rewrite <- Bool.not_true_iff_false, Qle_bool_iff. split.
  - apply Qnot_le_lt.
  - apply Qlt_not_le.
Qed.

Lemma nth_repeat_in {A} (x d : A) (n i : nat) : (i < n)%nat -> nth i (repeat x n) d = x.
Proof.
  revert i. induction n as [|n IH]; intros i Hi; [lia|].
  destruct i; simpl; [reflexivity | apply IH; lia].
Qed.

Lemma length_set_nth (v : list Q) (i : nat) (x : Q) : length (set_nth v i x) = length v.
Proof.
  revert i. induction v as [|y v IH]; intros [|i]; simpl; rewrite ?IH; reflexivity.
Qed.

Lemma nth_set_nth (v : list Q) (i j : nat) (x d : Q) :
  nth j (set_nth v i x) d = if Nat.eqb j i && Nat.ltb j (length v) then x else nth j v d.
Proof.
  revert i j. induction v as [|y v IH]; intros i j.
  - simpl. rewrite Bool.andb_false_r. destruct j; reflexivity.
  - destruct i as [|i], j as [|j]; simpl; try reflexivity.
    rewrite IH. reflexivity.
Qed.

Lemma length_assign_idx (v : list Q) (idx : list nat) (vals : list Q) :
  length (assign_idx v idx vals) = length v.
Proof.
  revert v vals. induction idx as [|i idx IH]; intros v [|x vals]; simpl; try reflexivity.
  rewrite IH. apply length_set_nth.
Qed.

Lemma nth_assign_map (v : list Q) (idx : list nat) (g : nat -> Q) (j : nat) (d : Q) :
  nth j (assign_idx v idx (map g idx)) d
  = if mem j idx && Nat.ltb j (length v) then g j else nth j v d.
Proof.
  revert v. induction idx as [|i idx IH]; intros v; simpl; [reflexivity|].
  rewrite IH, length_set_nth, nth_set_nth. unfold mem. simpl.
  destruct (existsb (Nat.eqb j) idx), (Nat.ltb j (length v)), (Nat.eqb j i) eqn:E;
    simpl; try reflexivity.
  apply Nat.eqb_eq in E. subst. reflexivity.
Qed.

Lemma np_divide_take (h : Q -> Q) (exp spd : list Q) (idx : list nat) :
  np_divide (map h (take_idx exp idx)) (take_idx spd idx)
  = map (fun k => h (nth k exp 0) / nth k spd 0) idx.
Proof.
  induction idx as [|k idx IH]; [reflexivity|].
  unfold np_divide in *. simpl. f_equal. exact IH.
Qed.

Lemma mem_speed_exists (spd : list Q) (i : nat) :
  (i < length spd)%nat -> mem i (speed_exists spd) = gtb (nth i spd 0) 0.1.
Proof.
  intros Hi. unfold speed_exists.
  destruct (gtb (nth i spd 0) 0.1) eqn:E.
  - apply mem_spec, where_spec. rewrite (nth_map_in _ _ _ 0) by exact Hi. exact E.
  - apply Bool.not_true_iff_false. rewrite mem_spec, where_spec.
    rewrite (nth_map_in _ _ _ 0) by exact Hi. rewrite E. discriminate.
Qed.

(** The element [i] of [expErrNorm]. *)
Lemma nth_exp_err_norm (spd exp : list Q) (i : nat) :
  length spd = length exp -> (i < length exp)%nat ->
  nth i (exp_err_norm spd exp) 0
  = if gtb (nth i spd 0) 0.1 then (10 - 0.1 * nth i exp 0) / nth i spd 0 else 100.
Proof.
  intros Hlen Hi. unfold exp_err_norm, ee_divisors. cbv zeta.
  rewrite np_divide_take, nth_assign_map, repeat_length.
  rewrite mem_speed_exists by lia.
  replace (Nat.ltb i (length exp)) with true by (symmetry; apply Nat.ltb_lt; exact Hi).
  rewrite Bool.andb_true_r.
  destruct (gtb (nth i spd 0) 0.1); [reflexivity|].
  apply nth_repeat_in. exact Hi.
Qed.

(** ** C3: the expected-error-normalized check *)

(** C3. In the exp-errnorm check (shared by NC005030/31/32/34/39), for
    vectors [spd] and [exp] of common length and every observation [i]: if
    its speed is at most 0.1 then [errNorm] is 100 whatever [exp] is and the
    observation is in [checkFail]; if its speed exceeds 0.1 then [errNorm]
    is [(10 - 0.1*exp)/spd] and the observation is in [checkFail] exactly
    when [errNorm > 0.9]. *)
Theorem exp_errnorm_check : forall (spd exp : list Q) (i : nat),
  length spd = length exp -> (i < length exp)%nat ->
  let errNorm := nth i (exp_err_norm spd exp) 0 in
  let fails := In i (check_fail (length exp) (ee_mask spd exp)) in
  (nth i spd 0 <= 0.1 -> errNorm = 100 /\ fails) /\
  (0.1 < nth i spd 0 ->
     errNorm = (10 - 0.1 * nth i exp 0) / nth i spd 0 /\ (fails <-> 0.9 < errNorm)).
Proof.
  intros spd exp i Hlen Hi errNorm fails. subst errNorm fails.
  assert (Hmask : nth i (ee_mask spd exp) false = Qle_bool (nth i (exp_err_norm spd exp) 0) 0.9).
  { unfold ee_mask. apply (nth_map_in (fun e => Qle_bool e 0.9)).
    unfold exp_err_norm. cbv zeta. rewrite length_assign_idx, repeat_length. exact Hi. }
  rewrite in_check_fail, Hmask, Qle_bool_false.
  rewrite nth_exp_err_norm by assumption.
  unfold gtb. split.
  - intros Hs. apply Qle_bool_iff in Hs. rewrite Hs. simpl.
    split; [reflexivity | split; [exact Hi | reflexivity]].
  - intros Hs. apply Qlt_not_le in Hs. rewrite <- Qle_bool_iff in Hs.
    apply Bool.not_true_iff_false in Hs. rewrite Hs. simpl.
    split; [reflexivity|]. split; [intros [_ H]; exact H | intros H; split; [exact Hi | exact H]].
Qed.

(** ** C10: the division is guarded *)

(** C10. [np.divide] in the exp-errnorm check only receives the speeds at
    [speedExists = np.where(spd > 0.1)]: every divisor exceeds 0.1, so none
    is zero, and [expErrNorm] is defined from those divisions alone, for
    every input (speed 0 included). *)
Theorem ee_division_guarded : forall spd exp : list Q,
  Forall (fun d => 0.1 < d /\ ~ d == 0) (ee_divisors spd) /\
  exp_err_norm spd exp
  = assign_idx (repeat 100 (length exp)) (speed_exists spd)
      (np_divide (map (fun e => 10 - 0.1 * e) (take_idx exp (speed_exists spd)))
                 (ee_divisors spd)).
Proof.
  intros spd exp. split; [|reflexivity].
  apply Forall_forall. intros d Hd.
  unfold ee_divisors, take_idx in Hd. apply in_map_iff in Hd.
  destruct Hd as [k [<- Hk]]. unfold speed_exists in Hk. apply where_spec in Hk.
  destruct (Nat.lt_ge_cases k (length spd)) as [Hlt|Hge].
  - rewrite (nth_map_in _ _ _ 0) in Hk by exact Hlt.
    unfold gtb in Hk. apply Bool.negb_true_iff, Qle_bool_false in Hk.
    split; [exact Hk|]. intros Heq. rewrite Heq in Hk. discriminate.
  - rewrite nth_overflow in Hk by (rewrite length_map; exact Hge). discriminate.
Qed.

(** ** C6: the zenith-angle check *)

Lemma zen_check_fail (zen : list Q) (i : nat) :
  (i < length zen)%nat ->
  In i (check_fail (length zen) (zen_mask zen)) <-> 68 < nth i zen 0.
Proof.
  intros Hi. rewrite in_check_fail. unfold zen_mask.
  rewrite (nth_map_in (fun z => Qle_bool z angMax) zen i 0) by exact Hi.
  rewrite Qle_bool_false. unfold angMax. tauto.
Qed.

(** C6. Every tank's first check is the zenith-angle check; an observation
    whose zenith angle is exactly 68.0 is not in its [checkFail] and one
    whose angle exceeds 68.0 is; and for every tank, the batch of five
    observations with zenith angles [10,70,30,68,90] and every other signal
    passing gives [idxPass = [0,2,3]] and [idxFail = [1,4]]. *)
Theorem zenith_check_boundary :
  (forall t : qc_tank, screen t (zen_scenario t) = ([0; 2; 3], [1; 4])%nat) /\
  (forall (t : qc_tank) (inp : qc_inputs), nth 0 (qc_masks t inp) [] = zen_mask (zenithAngle inp)) /\
  (forall (zen : list Q) (i : nat), (i < length zen)%nat ->
     (nth i zen 0 == 68 -> ~ In i (check_fail (length zen) (zen_mask zen))) /\
     (68 < nth i zen 0 -> In i (check_fail (length zen) (zen_mask zen)))).
Proof.
  split; [intros t; destruct t; vm_compute; reflexivity|].
  split; [intros t inp; destruct t; reflexivity|].
  intros zen i Hi. rewrite zen_check_fail by exact Hi. split.
  - intros Heq Hlt. rewrite Heq in Hlt. apply (Qlt_irrefl 68). exact Hlt.
  - intros H. exact H.
Qed.

(** ** C7: the pressure checks *)

Lemma pre_check_fail (preMin : Q) (pre : list Q) (i : nat) :
  (i < length pre)%nat ->
  In i (check_fail (length pre) (pre_mask preMin pre)) <-> nth i pre 0 < preMin.
Proof.
  intros Hi. rewrite in_check_fail. unfold pre_mask.
  rewrite (nth_map_in (fun p => Qle_bool preMin p) pre i 0) by exact Hi.
  rewrite Qle_bool_false. tauto.
Qed.

Lemma pre_band_check_fail (preMin preMax : Q) (pre : list Q) (i : nat) :
  (i < length pre)%nat ->
  In i (check_fail (length pre) (pre_band_mask preMin preMax pre))
  <-> ~ (preMin <= nth i pre 0 /\ nth i pre 0 <= preMax).
Proof.
  intros Hi. rewrite in_check_fail. unfold pre_band_mask.
  rewrite (nth_map_in (fun p => Qle_bool preMin p && Qle_bool p preMax) pre i 0) by exact Hi.
  rewrite <- Bool.not_true_iff_false, Bool.andb_true_iff, !Qle_bool_iff. tauto.
Qed.

(** C7. The pressure check (third check) of NC005030, NC005031 and NC005039
    uses [preMin = 15000.], that of NC005032 [preMin = 70000.], that of
    NC005034 the band [15000., 30000.]; an observation is in the check's
    [checkFail] exactly when its pressure is below the floor, respectively
    outside the band, so a pressure equal to a floor or band end passes. *)
Theorem pressure_check_floor :
  (forall inp : qc_inputs,
     nth 2 (qc_masks NC005030 inp) [] = pre_mask 15000 (pressure inp) /\
     nth 2 (qc_masks NC005031 inp) [] = pre_mask 15000 (pressure inp) /\
     nth 2 (qc_masks NC005039 inp) [] = pre_mask 15000 (pressure inp) /\
     nth 2 (qc_masks NC005032 inp) [] = pre_mask 70000 (pressure inp) /\
     nth 2 (qc_masks NC005034 inp) [] = pre_band_mask 15000 30000 (pressure inp)) /\
  (forall (pre : list Q) (i : nat), (i < length pre)%nat ->
     (In i (check_fail (length pre) (pre_mask 15000 pre)) <-> nth i pre 0 < 15000) /\
     (In i (check_fail (length pre) (pre_mask 70000 pre)) <-> nth i pre 0 < 70000) /\
     (In i (check_fail (length pre) (pre_band_mask 15000 30000 pre))
        <-> ~ (15000 <= nth i pre 0 /\ nth i pre 0 <= 30000))).
Proof.
  split; [intros inp; repeat split|].
  intros pre i Hi.
  rewrite !pre_check_fail, pre_band_check_fail by exact Hi. tauto.
Qed.

(** ** C4: generating-application column resolution *)

(** C4 (evaluation at the failing input). With PCCF rows [[80,95,70],[81,96,71]]
    and GNAP rows [[101,102,7],[103,102,7]] (column 1 uniformly 102, column 0
    not uniform), the loop raises [ValueError] at [i = 0] instead of
    resolving the quality indicator to column 1 ([[95,96]]); with column 0
    uniform ([[101,102,7],[101,102,7]]) it does resolve to [[95,96]]; and the
    missing-value sentinel [1.0E+10] fails the [85..100] quality-indicator
    check. *)
Theorem gnap_resolution_nonuniform_column :
  resolve_qualityIndicator [[80; 95; 70]; [81; 96; 71]]
                           [[101; 102; 7]; [103; 102; 7]]%Z = inl ValueError /\
  resolve_qualityIndicator [[80; 95; 70]; [81; 96; 71]]
                           [[101; 102; 7]; [101; 102; 7]]%Z = inr [95; 96] /\
  qi_mask 85 100 [qi_missing] = [false].
Proof. vm_compute. repeat split. Qed.

(** ** C5: the zero-check tank NC005080 *)

Lemma mask_assign_repeat {A} (a v : Z) (f : A -> bool) (l : list A) :
  mask_assign (repeat a (length l)) (map f l) v = map (fun x => if f x then v else a) l.
Proof.
  induction l as [|x l IH]; [reflexivity|].
  unfold mask_assign in *. simpl. rewrite IH. reflexivity.
Qed.

(** C5 (counterexample). NC005080 with methods [[1, 2]]: preQC is [[1, 1]] but
    observationType is [[244, -1]], not 244 for every row. *)
Lemma NC005080_obtype_not_constant :
  process_NC005080_qc [1; 2] = ([1; 1]%Z, [244; -1]%Z) /\
  snd (process_NC005080_qc [1; 2]) <> repeat 244%Z 2.
Proof. vm_compute. split; [reflexivity | discriminate]. Qed.

(** C5 (amended). For every vector of wind computation methods, NC005080's
    preQC is +1 for every row and its observationType is 244 where the
    method is 1 and the sentinel -1 elsewhere. *)
Theorem NC005080_preqc_obtype : forall windComputationMethod : list Q,
  process_NC005080_qc windComputationMethod
  = (repeat 1%Z (length windComputationMethod),
     map (fun w => if Qeq_bool w 1 then 244%Z else (-1)%Z) windComputationMethod).
Proof.
  intros wcm. unfold process_NC005080_qc. cbv zeta. rewrite repeat_length.
  f_equal. apply mask_assign_repeat.
Qed.

(** ** C8 and C9: the tank loop *)

Module AggregatorFacts.
Import Aggregator.

Lemma print_state (msg : string) (s : agg) :
  print msg s = (inr tt, with_stdout s [msg]).
Proof. destruct s. reflexivity. Qed.

Lemma try_except_print_total (body : M unit) (msg : string) (s : agg) :
  fst (try_except body (print msg) s) = inr tt.
Proof.
  unfold try_except. destruct (body s) as [[e|[]] s']; [rewrite print_state|]; reflexivity.
Qed.

Lemma tank_iteration_total p (tankName : string) (s : agg) :
  fst (tank_iteration p tankName s) = inr tt.
Proof.
  unfold tank_iteration, bind at 1. rewrite print_state. apply try_except_print_total.
Qed.

Lemma tank_loop_cons p (t : string) (rest : list string) (s : agg) :
  tank_loop p (t :: rest) s = tank_loop p rest (snd (tank_iteration p t s)).
Proof.
  simpl. unfold bind at 1. pose proof (tank_iteration_total p t s) as H.
  destruct (tank_iteration p t s) as [r s']. simpl in H. subst r. reflexivity.
Qed.

Lemma tank_loop_total p (l : list string) (s : agg) :
  fst (tank_loop p l s) = inr tt.
Proof.
  revert s. induction l as [|t l IH]; intros s; [reflexivity|].
  rewrite tank_loop_cons. apply IH.
Qed.

Lemma tank_iteration_failed p (tankName : string) (s : agg) (e : py_exn) :
  p tankName bufrFileName (outDict tankName) = inl e ->
  tank_iteration p tankName s
  = (inr tt, with_stdout s [processing_msg tankName; warning_msg tankName]).
Proof.
  intros H. unfold tank_iteration, bind at 1. rewrite print_state.
  unfold try_except, bind, lift. rewrite H. unfold raise.
  rewrite print_state. destruct s. simpl. rewrite <- app_assoc. reflexivity.
Qed.

Lemma with_stdout_fields (s : agg) (msgs : list string) (f : field) :
  get_field f (with_stdout s msgs) = get_field f s.
Proof. destruct s, f; reflexivity. Qed.

(** C8. When the extraction call of a tank raises (e.g. a required query
    cannot be resolved), that loop iteration leaves all twelve accumulator
    arrays unchanged, prints the warning after the progress line, the loop
    goes on with the remaining tanks from that state, and the loop as a
    whole completes normally (no exception escapes). *)
Theorem failed_extraction_skipped :
  forall (process_satwnd_tank : string -> string -> list (string * string) -> py_exn + Dict)
         (tankName : string) (rest : list string) (s : agg) (e : py_exn),
  process_satwnd_tank tankName bufrFileName (outDict tankName) = inl e ->
  let s' := snd (tank_iteration process_satwnd_tank tankName s) in
  (forall f : field, get_field f s' = get_field f s) /\
  stdout s' = stdout s ++ [processing_msg tankName; warning_msg tankName] /\
  tank_loop process_satwnd_tank (tankName :: rest) s = tank_loop process_satwnd_tank rest s' /\
  fst (tank_loop process_satwnd_tank (tankName :: rest) s) = inr tt.
Proof.
  intros p t rest s e H s'. subst s'.
  rewrite tank_loop_cons, (tank_iteration_failed p t s e H). cbn [snd].
  split; [intros f; apply with_stdout_fields|].
  split; [destruct s; reflexivity|].
  split; [reflexivity|].
  apply tank_loop_total.
Qed.

(** C9 (counterexample). With the spec's dispatcher, the loop over
    [tankNameList] (which lists NC005072, a tank with no processor)
    completes normally: NC005072 is skipped with a warning and the other
    sixteen tanks are appended. *)
Lemma unknown_tank_not_fatal :
  let r := tank_loop (process_satwnd_tank_spec demo_process) tankNameList agg_init in
  fst r = inr tt /\
  existsb (String.eqb (warning_msg "NC005072")) (stdout (snd r)) = true /\
  length (obLat (snd r)) = 16%nat.
Proof. vm_compute. repeat split. Qed.

(** C9 (amended). An unknown tank name makes the extraction fail with a
    configuration error, which the loop's bare [except] catches: the
    accumulators are left as they were, a warning is printed, and the loop
    completes normally instead of aborting. *)
Theorem unknown_tank_skipped :
  forall (process_tank : string -> string -> list (string * string) -> py_exn + Dict)
         (tankName : string) (rest : list string) (s : agg),
  existsb (String.eqb tankName) known_tanks = false ->
  tank_iteration (process_satwnd_tank_spec process_tank) tankName s
    = (inr tt, with_stdout s [processing_msg tankName; warning_msg tankName]) /\
  fst (tank_loop (process_satwnd_tank_spec process_tank) (tankName :: rest) s) = inr tt.
Proof.
  intros p t rest s H. split.
  - apply (tank_iteration_failed _ t s ConfigurationError).
    unfold process_satwnd_tank_spec. rewrite H. reflexivity.
  - apply tank_loop_total.
Qed.

(** Witness of C8: a tank whose extraction raises [DataUnavailable]. *)
Lemma failed_extraction_skipped_witness :
  (fun (_ : string) (_ : string) (_ : list (string * string)) => @inl py_exn Dict DataUnavailable)
    "NC005030"%string bufrFileName (outDict "NC005030"%string) = inl DataUnavailable /\
  let p := fun (_ : string) (_ : string) (_ : list (string * string)) =>
             @inl py_exn Dict DataUnavailable in
  let s' := snd (tank_iteration p "NC005030"%string agg_init) in
  (forall f : field, get_field f s' = get_field f agg_init) /\
  stdout s' = stdout agg_init ++ [processing_msg "NC005030"%string; warning_msg "NC005030"%string] /\
  tank_loop p ["NC005030"%string; "NC005031"%string] agg_init = tank_loop p ["NC005031"%string] s' /\
  fst (tank_loop p ["NC005030"%string; "NC005031"%string] agg_init) = inr tt.
Proof.
  split; [reflexivity|].
  exact (failed_extraction_skipped
           (fun _ _ _ => inl DataUnavailable) "NC005030"%string ["NC005031"%string] agg_init
           DataUnavailable eq_refl).
Defined.

(** Witness of C9 (amended): the tank NC005072 of [tankNameList]. *)
Lemma unknown_tank_skipped_witness :
  existsb (String.eqb "NC005072"%string) known_tanks = false /\
  tank_iteration (process_satwnd_tank_spec demo_process) "NC005072"%string agg_init
    = (inr tt, with_stdout agg_init [processing_msg "NC005072"%string; warning_msg "NC005072"%string]) /\
  fst (tank_loop (process_satwnd_tank_spec demo_process) ["NC005072"%string; "NC005080"%string] agg_init)
    = inr tt.
Proof.
  split; [vm_compute; reflexivity|].
  apply unknown_tank_skipped. vm_compute. reflexivity.
Defined.

End AggregatorFacts.

(** ** Witnesses *)

(** Witness of C2: NC005030 on the zenith scenario, checks reversed. *)
Lemma screen_pass_set_semantics_witness :
  Permutation (qc_masks NC005030 (zen_scenario NC005030))
              (rev (qc_masks NC005030 (zen_scenario NC005030))) /\
  fst (screen NC005030 (zen_scenario NC005030))
    = pass_ref (qc_nobs NC005030 (zen_scenario NC005030)) (qc_masks NC005030 (zen_scenario NC005030)) /\
  fst (pre_qc_masks (qc_nobs NC005030 (zen_scenario NC005030))
                    (rev (qc_masks NC005030 (zen_scenario NC005030))))
    = fst (screen NC005030 (zen_scenario NC005030)).
Proof.
  split; [apply Permutation_rev|].
  apply screen_pass_set_semantics. apply Permutation_rev.
Defined.

(** Witness of C3: speeds [[0.05, 20]], expected errors [[3, 0]], observation 0. *)
Lemma exp_errnorm_check_witness :
  length [0.05; 20] = length [3; 0] /\ Nat.lt 0 (length [3; 0]) /\
  (nth 0 [0.05; 20] 0 <= 0.1 ->
     nth 0 (exp_err_norm [0.05; 20] [3; 0]) 0 = 100 /\
     In 0%nat (check_fail (length [3; 0]) (ee_mask [0.05; 20] [3; 0]))) /\
  (0.1 < nth 0 [0.05; 20] 0 ->
     nth 0 (exp_err_norm [0.05; 20] [3; 0]) 0 = (10 - 0.1 * nth 0 [3; 0] 0) / nth 0 [0.05; 20] 0 /\
     (In 0%nat (check_fail (length [3; 0]) (ee_mask [0.05; 20] [3; 0]))
        <-> 0.9 < nth 0 (exp_err_norm [0.05; 20] [3; 0]) 0)).
Proof.
  split; [reflexivity|]. split; [simpl; lia|].
  apply (exp_errnorm_check [0.05; 20] [3; 0] 0); [reflexivity | simpl; lia].
Defined.

(** Witness of C6: observation 1 (angle 70) of the scenario batch. *)
Lemma zenith_check_boundary_witness :
  Nat.lt 1 (length [10; 70; 30; 68; 90]) /\
  (nth 1 [10; 70; 30; 68; 90] 0 == 68 ->
     ~ In 1%nat (check_fail (length [10; 70; 30; 68; 90]) (zen_mask [10; 70; 30; 68; 90]))) /\
  (68 < nth 1 [10; 70; 30; 68; 90] 0 ->
     In 1%nat (check_fail (length [10; 70; 30; 68; 90]) (zen_mask [10; 70; 30; 68; 90]))).
Proof.
  split; [simpl; lia|].
  apply (proj2 (proj2 zenith_check_boundary)). simpl. lia.
Defined.

(** Witness of C7: pressures [[15000, 14999]], observation 0. *)
Lemma pressure_check_floor_witness :
  Nat.lt 0 (length [15000; 14999]) /\
  ((In 0%nat (check_fail (length [15000; 14999]) (pre_mask 15000 [15000; 14999]))
      <-> nth 0 [15000; 14999] 0 < 15000) /\
   (In 0%nat (check_fail (length [15000; 14999]) (pre_mask 70000 [15000; 14999]))
      <-> nth 0 [15000; 14999] 0 < 70000) /\
   (In 0%nat (check_fail (length [15000; 14999]) (pre_band_mask 15000 30000 [15000; 14999]))
      <-> ~ (15000 <= nth 0 [15000; 14999] 0 /\ nth 0 [15000; 14999] 0 <= 30000))).
Proof.
  split; [simpl; lia|].
  apply (proj2 pressure_check_floor). simpl. lia.
Defined.

(* ================================================================== *)
(** * Further properties of the extraction and report code *)

(** ** Index assignment on int arrays *)

Lemma length_set_nthZ (v : list Z) (i : nat) (x : Z) : length (set_nthZ v i x) = length v.
Proof.
  revert i. induction v as [|a v IH]; intros [|i]; simpl; auto.
Qed.

Lemma nth_set_nthZ (v : list Z) (i j : nat) (x d : Z) :
  nth j (set_nthZ v i x) d = if Nat.eqb i j && Nat.ltb j (length v) then x else nth j v d.
Proof.
  revert i j. induction v as [|a v IH]; intros i j.
  - simpl. rewrite Bool.andb_false_r. destruct i, j; reflexivity.
  - destruct i as [|i], j as [|j]; simpl; try reflexivity.
    rewrite IH. reflexivity.
Qed.

Lemma length_fill_idx (v : list Z) (idx : list nat) (x : Z) :
  length (fill_idx v idx x) = length v.
Proof.
  unfold fill_idx. revert v. induction idx as [|i idx IH]; intros v; simpl; [reflexivity|].
  rewrite IH. apply length_set_nthZ.
Qed.

Lemma nth_fill_idx (v : list Z) (idx : list nat) (x d : Z) (j : nat) :
  nth j (fill_idx v idx x) d = if mem j idx && Nat.ltb j (length v) then x else nth j v d.
Proof.
  unfold fill_idx. revert v. induction idx as [|i idx IH]; intros v; simpl; [reflexivity|].
  fold (fill_idx (set_nthZ v i x) idx x). unfold fill_idx in *.
  rewrite IH, length_set_nthZ, nth_set_nthZ. unfold mem. simpl. fold (mem j idx).
  rewrite (Nat.eqb_sym i j).
  destruct (Nat.eqb j i), (mem j idx), (Nat.ltb j (length v)); reflexivity.
Qed.

Lemma mem_where (mask : list bool) (j : nat) : mem j (where_ mask) = nth j mask false.
Proof.
  apply Bool.eq_iff_eq_true. rewrite mem_spec. apply where_spec.
Qed.

Lemma length_where_assign (a : list Z) (m : list bool) (v : Z) :
  length (where_assign a m v) = length a.
Proof. apply length_fill_idx. Qed.

Lemma nth_where_assign (a : list Z) (m : list bool) (v d : Z) (j : nat) :
  (j < length a)%nat ->
  nth j (where_assign a m v) d = if nth j m false then v else nth j a d.
Proof.
  intros Hj. unfold where_assign. rewrite nth_fill_idx, mem_where.
  apply Nat.ltb_lt in Hj. rewrite Hj, Bool.andb_true_r. reflexivity.
Qed.

Lemma passes_all_Forall (masks : list (list bool)) (i : nat) :
  passes_all masks i = true <-> Forall (fun m => nth i m false = true) masks.
Proof.
  unfold passes_all. rewrite forallb_forall, Forall_forall.
  split; intros H m Hm; specialize (H m Hm); rewrite mem_where in *; exact H.
Qed.

(** The preQC vector built from a [pre_qc] split of [arange n]. *)
Lemma preQC_vector_filter (n : nat) (P : nat -> bool) (i : nat) :
  (i < n)%nat ->
  nth i (preQC_vector (filter P (arange n)) (filter (fun j => negb (P j)) (arange n))) 0%Z
  = if P i then 1%Z else (-1)%Z.
Proof.
  intros Hi. unfold preQC_vector. rewrite length_filter_split. unfold arange.
  rewrite length_seq, nth_fill_idx, repeat_length.
  rewrite mem_filter_in by (apply in_seq; lia).
  apply Nat.ltb_lt in Hi. rewrite Hi, Bool.andb_true_r.
  rewrite nth_repeat_in by (apply Nat.ltb_lt; exact Hi). reflexivity.
Qed.

(** ** X1: the preQC vector marks exactly the observations passing every check *)

(** X1. For every tank with a [pre_qc] (NC005030/31/32/34/39/44/45/46/67/68/69)
    the vector [preQC = -1*ones(size(idxPass)+size(idxFail)); preQC[idxPass] = 1]
    has one entry per observation; the entry of observation [i] is [1] when
    [i] passes every check of the tank's [pre_qc] and [-1] otherwise, so it
    is never left at any other value. *)
Theorem preQC_marks_passing : forall (t : qc_tank) (inp : qc_inputs),
  let preQC := preQC_vector (fst (screen t inp)) (snd (screen t inp)) in
  length preQC = qc_nobs t inp /\
  forall i : nat, (i < qc_nobs t inp)%nat ->
    (nth i preQC 0%Z = 1%Z <-> Forall (fun m => nth i m false = true) (qc_masks t inp)) /\
    (nth i preQC 0%Z = 1%Z \/ nth i preQC 0%Z = (-1)%Z).
Proof.
  intros t inp preQC. unfold preQC. rewrite screen_masks, pre_qc_masks_filter. simpl fst; simpl snd.
  split.
  - unfold preQC_vector. rewrite length_fill_idx, repeat_length, length_filter_split.
    unfold arange. apply length_seq.
  - intros i Hi. rewrite preQC_vector_filter by exact Hi.
    rewrite <- passes_all_Forall.
    destruct (passes_all (qc_masks t inp) i); split; try tauto; split; congruence.
Qed.

(** ** Classification of the observation type by wind computation method *)

Lemma Qeq_bool_compat (w w' c : Q) : w == w' -> Qeq_bool w c = Qeq_bool w' c.
Proof.
  intros H. apply Bool.eq_iff_eq_true. rewrite !Qeq_bool_iff.
  split; intros H'; [rewrite <- H | rewrite H]; exact H'.
Qed.

Lemma Qle_bool_compat (c w w' : Q) : w == w' -> Qle_bool c w = Qle_bool c w'.
Proof.
  intros H. apply Bool.eq_iff_eq_true. rewrite !Qle_bool_iff.
  split; intros H'; [rewrite <- H | rewrite H]; exact H'.
Qed.

Lemma nth_obType_NC005044 (preQC : list Z) (wcm : list Q) (i : nat) :
  length wcm = length preQC -> (i < length preQC)%nat ->
  let w := nth i wcm 0 in
  nth i (obType_NC005044 preQC wcm) 0%Z =
    if Qle_bool 4 w then 250%Z else if Qeq_bool w 3 then 250%Z
    else if Qeq_bool w 2 then 242%Z else if Qeq_bool w 1 then 252%Z else (-1)%Z.
Proof.
  intros Hl Hi w. unfold obType_NC005044. cbv zeta.
  repeat rewrite nth_where_assign by (repeat rewrite length_where_assign; rewrite repeat_length; exact Hi).
  rewrite !(nth_map_in _ wcm i 0) by lia.
  rewrite nth_repeat_in by exact Hi. reflexivity.
Qed.

Lemma nth_obType_NC005067 (preQC : list Z) (wcm : list Q) (i : nat) :
  length wcm = length preQC -> (i < length preQC)%nat ->
  let w := nth i wcm 0 in
  nth i (obType_NC005067 preQC wcm) 0%Z =
    if Qle_bool 4 w then 254%Z else if Qeq_bool w 3 then 254%Z
    else if Qeq_bool w 2 then 243%Z else if Qeq_bool w 1 then 253%Z else (-1)%Z.
Proof.
  intros Hl Hi w. unfold obType_NC005067. cbv zeta.
  repeat rewrite nth_where_assign by (repeat rewrite length_where_assign; rewrite repeat_length; exact Hi).
  rewrite !(nth_map_in _ wcm i 0) by lia.
  rewrite nth_repeat_in by exact Hi. reflexivity.
Qed.

(** Rewrites every [Qeq_bool w c] and [Qle_bool c w] of the goal with
    [w == k] and evaluates them. *)
Ltac eval_method Hw :=
  repeat first [ rewrite (Qeq_bool_compat _ _ _ Hw) | rewrite (Qle_bool_compat _ _ _ Hw) ];
  reflexivity.

Lemma method_cases (w : Q) :
  ~ (w == 1 \/ w == 2 \/ w == 3 \/ 4 <= w) ->
  Qle_bool 4 w = false /\ Qeq_bool w 3 = false /\ Qeq_bool w 2 = false /\ Qeq_bool w 1 = false.
Proof.
  intros H. rewrite <- !Bool.not_true_iff_false, Qle_bool_iff, !Qeq_bool_iff. tauto.
Qed.

Lemma integer_method (w : Q) (k : Z) :
  (1 <= k)%Z -> w == inject_Z k -> w == 1 \/ w == 2 \/ w == 3 \/ 4 <= w.
Proof.
  intros Hk Hw. rewrite Hw.
  destruct (Z.lt_ge_cases k 4) as [Hlt | Hge].
  - assert (Hk' : (k = 1 \/ k = 2 \/ k = 3)%Z) by lia.
    destruct Hk' as [-> | [-> | ->]]; [left | right; left | right; right; left]; reflexivity.
  - right; right; right. change 4 with (inject_Z 4). rewrite <- Zle_Qle. exact Hge.
Qed.

(** The nested choice made by the four masked assignments, for any codes
    of IR, VIS and water-vapour winds. *)
Lemma method_classify (w : Q) (cIR cVIS cWV : Z) :
  cIR <> (-1)%Z -> cVIS <> (-1)%Z -> cWV <> (-1)%Z ->
  let o := if Qle_bool 4 w then cWV else if Qeq_bool w 3 then cWV
           else if Qeq_bool w 2 then cVIS else if Qeq_bool w 1 then cIR else (-1)%Z in
  (w == 1 -> o = cIR) /\ (w == 2 -> o = cVIS) /\ (w == 3 -> o = cWV) /\
  (4 <= w -> o = cWV) /\
  (~ (w == 1 \/ w == 2 \/ w == 3 \/ 4 <= w) -> o = (-1)%Z) /\
  (forall k : Z, (1 <= k)%Z -> w == inject_Z k -> o <> (-1)%Z).
Proof.
  intros H1 H2 H3 o. unfold o.
  split; [intros Hw; eval_method Hw|].
  split; [intros Hw; eval_method Hw|].
  split; [intros Hw; eval_method Hw|].
  split; [intros Hw; apply Qle_bool_iff in Hw; rewrite Hw; reflexivity|].
  split; [intros H; destruct (method_cases w H) as [-> [-> [-> ->]]]; reflexivity|].
  intros k Hk Hw. pose proof (integer_method w k Hk Hw) as Hc.
  destruct (Qle_bool 4 w) eqn:E4; [exact H3|].
  destruct (Qeq_bool w 3) eqn:E3; [exact H3|].
  destruct (Qeq_bool w 2) eqn:E2; [exact H2|].
  destruct (Qeq_bool w 1) eqn:E1; [exact H1|].
  exfalso. destruct Hc as [H | [H | [H | H]]];
    [apply Qeq_bool_iff in H | apply Qeq_bool_iff in H | apply Qeq_bool_iff in H
    | apply Qle_bool_iff in H]; congruence.
Qed.

(** ** X2: observation types of the JMA tanks *)

(** X2. In process_NC005044 (and its copies NC005045, NC005046), with one
    wind computation method per preQC entry, observation [i] gets type 252
    for method 1 (IR), 242 for method 2 (VIS), 250 for method 3 or any
    method [>= 4] (water vapour), and stays -1 for every other value; in
    particular every integer method [>= 1] is classified. *)
Theorem JMA_obType_by_method : forall (preQC : list Z) (wcm : list Q) (i : nat),
  length wcm = length preQC -> (i < length preQC)%nat ->
  let w := nth i wcm 0 in
  let o := nth i (obType_NC005044 preQC wcm) 0%Z in
  length (obType_NC005044 preQC wcm) = length preQC /\
  (w == 1 -> o = 252%Z) /\ (w == 2 -> o = 242%Z) /\ (w == 3 -> o = 250%Z) /\
  (4 <= w -> o = 250%Z) /\
  (~ (w == 1 \/ w == 2 \/ w == 3 \/ 4 <= w) -> o = (-1)%Z) /\
  (forall k : Z, (1 <= k)%Z -> w == inject_Z k -> o <> (-1)%Z).
Proof.
  intros preQC wcm i Hl Hi w o. unfold o. rewrite nth_obType_NC005044 by assumption. fold w.
  split.
  - unfold obType_NC005044. cbv zeta. rewrite !length_where_assign. apply repeat_length.
  - apply method_classify; discriminate.
Qed.

(** ** X3: observation types of the NESDIS geostationary tanks *)

(** X3. In process_NC005067 (and its copies NC005068, NC005069), with one
    wind computation method per preQC entry, observation [i] gets type 253
    for method 1 (IR), 243 for method 2 (VIS), 254 for method 3 or any
    method [>= 4] (water vapour), and stays -1 for every other value; every
    integer method [>= 1] is classified. *)
Theorem NESDIS_obType_by_method : forall (preQC : list Z) (wcm : list Q) (i : nat),
  length wcm = length preQC -> (i < length preQC)%nat ->
  let w := nth i wcm 0 in
  let o := nth i (obType_NC005067 preQC wcm) 0%Z in
  length (obType_NC005067 preQC wcm) = length preQC /\
  (w == 1 -> o = 253%Z) /\ (w == 2 -> o = 243%Z) /\ (w == 3 -> o = 254%Z) /\
  (4 <= w -> o = 254%Z) /\
  (~ (w == 1 \/ w == 2 \/ w == 3 \/ 4 <= w) -> o = (-1)%Z) /\
  (forall k : Z, (1 <= k)%Z -> w == inject_Z k -> o <> (-1)%Z).
Proof.
  intros preQC wcm i Hl Hi w o. unfold o. rewrite nth_obType_NC005067 by assumption. fold w.
  split.
  - unfold obType_NC005067. cbv zeta. rewrite !length_where_assign. apply repeat_length.
  - apply method_classify; discriminate.
Qed.

(** ** X4: the zero-check tanks NC005070 and NC005071 *)

(** X4. process_NC005070 (and its copy NC005071) marks every observation as
    passing ([preQC] all ones, one entry per method value) and types it 257
    for method 1 (IR), 258 for method 3 and 259 for methods [>= 4]; a
    visible-channel wind (method 2) passes pre-QC but keeps type -1, as does
    any other unlisted method. *)
Theorem NC005070_preqc_obtype : forall (wcm : list Q) (i : nat),
  (i < length wcm)%nat ->
  let '(preQC, obType) := process_NC005070_qc wcm in
  let w := nth i wcm 0 in
  let o := nth i obType 0%Z in
  length preQC = length wcm /\ length obType = length wcm /\
  nth i preQC 0%Z = 1%Z /\
  (w == 1 -> o = 257%Z) /\ (w == 2 -> o = (-1)%Z) /\ (w == 3 -> o = 258%Z) /\
  (4 <= w -> o = 259%Z) /\
  (o = (-1)%Z <-> ~ (w == 1 \/ w == 3 \/ 4 <= w)).
Proof.
  intros wcm i Hi. unfold process_NC005070_qc. cbv zeta.
  assert (Hr : (i < length (repeat (-1)%Z (length (repeat 1%Z (length wcm)))))%nat)
    by (rewrite !repeat_length; exact Hi).
  repeat rewrite nth_where_assign by (repeat rewrite length_where_assign; exact Hr).
  rewrite !(nth_map_in _ wcm i 0) by exact Hi.
  rewrite !nth_repeat_in by (rewrite ?repeat_length; exact Hi).
  set (w := nth i wcm 0).
  split; [apply repeat_length|].
  split; [rewrite !length_where_assign, !repeat_length; reflexivity|].
  split; [reflexivity|].
  split; [intros Hw; eval_method Hw|].
  split; [intros Hw; eval_method Hw|].
  split; [intros Hw; eval_method Hw|].
  split; [intros Hw; apply Qle_bool_iff in Hw; rewrite Hw; reflexivity|].
  destruct (Qle_bool 4 w) eqn:E4; [split; [discriminate | intros H; exfalso; apply H; right; right; apply Qle_bool_iff; exact E4]|].
  destruct (Qeq_bool w 3) eqn:E3; [split; [discriminate | intros H; exfalso; apply H; right; left; apply Qeq_bool_iff; exact E3]|].
  destruct (Qeq_bool w 1) eqn:E1; [split; [discriminate | intros H; exfalso; apply H; left; apply Qeq_bool_iff; exact E1]|].
  split; [|reflexivity]. intros _ [H | [H | H]];
    [apply Qeq_bool_iff in H | apply Qeq_bool_iff in H | apply Qle_bool_iff in H]; congruence.
Qed.

(** ** GNAP resolution on uniform tag columns *)

Lemma insertZ_repeat (t : Z) (n : nat) : insertZ t (repeat t n) = t :: repeat t n.
Proof. destruct n; simpl; [reflexivity | rewrite Z.leb_refl; reflexivity]. Qed.

Lemma sortZ_repeat (t : Z) (n : nat) : sortZ (repeat t n) = repeat t n.
Proof.
  induction n as [|n IH]; simpl; [reflexivity|]. rewrite IH. apply insertZ_repeat.
Qed.

Lemma dedupZ_repeat (t : Z) (n : nat) : dedupZ (repeat t (S n)) = [t].
Proof.
  induction n as [|n IH]; [reflexivity|].
  change (repeat t (S (S n))) with (t :: repeat t (S n)).
  cbn [dedupZ repeat]. rewrite Z.eqb_refl. exact IH.
Qed.

Lemma columnZ_uniform (y : list (list Z)) (i : nat) (t : Z) :
  y <> [] -> Forall (fun r => nth i r 0%Z = t) y -> uniqueZ (columnZ y i) = [t].
Proof.
  intros Hne Hall.
  assert (Hc : columnZ y i = repeat t (length y)).
  { unfold columnZ. induction Hall as [|r y Hr Hall IH]; [reflexivity|].
    simpl. rewrite Hr. destruct y as [|r' y']; [reflexivity|].
    rewrite IH by discriminate. reflexivity. }
  rewrite Hc. unfold uniqueZ. rewrite sortZ_repeat.
  destruct y as [|r y]; [contradiction|]. apply dedupZ_repeat.
Qed.

Lemma resolve_uniform (x : list (list Q)) (y : list (list Z)) (t0 t1 t2 : Z) :
  y <> [] ->
  Forall (fun r => nth 0 r 0%Z = t0 /\ nth 1 r 0%Z = t1 /\ nth 2 r 0%Z = t2) y ->
  resolve_qualityIndicator x y =
    inr (if Z.eqb t2 102 then columnQ x 2 else if Z.eqb t1 102 then columnQ x 1
         else if Z.eqb t0 102 then columnQ x 0 else repeat qi_missing (length x)).
Proof.
  intros Hne Hall.
  assert (H0 : uniqueZ (columnZ y 0) = [t0])
    by (apply columnZ_uniform; [exact Hne | eapply Forall_impl; [|exact Hall]; simpl; tauto]).
  assert (H1 : uniqueZ (columnZ y 1) = [t1])
    by (apply columnZ_uniform; [exact Hne | eapply Forall_impl; [|exact Hall]; simpl; tauto]).
  assert (H2 : uniqueZ (columnZ y 2) = [t2])
    by (apply columnZ_uniform; [exact Hne | eapply Forall_impl; [|exact Hall]; simpl; tauto]).
  unfold resolve_qualityIndicator. simpl seq. cbn [resolve_loop].
  rewrite H0, H1, H2. cbn [map array_truth].
  rewrite (Z.eqb_sym 102 t0), (Z.eqb_sym 102 t1), (Z.eqb_sym 102 t2).
  destruct (Z.eqb t0 102), (Z.eqb t1 102), (Z.eqb t2 102); reflexivity.
Qed.

(** ** X5: the column whose generating application is 102 is taken *)

(** X5. In process_NC005044 (and NC005045, NC005046), when every GNAP
    column holds one tag throughout the subset ([t0], [t1], [t2] for
    columns 0, 1, 2), the loop raises nothing and the quality indicator is
    the PCCF column of the last index whose tag is 102, or the
    [1.0E+10] sentinel everywhere when no tag is 102. *)
Theorem gnap_uniform_resolution : forall (x : list (list Q)) (y : list (list Z)) (t0 t1 t2 : Z),
  y <> [] ->
  Forall (fun r => nth 0 r 0%Z = t0 /\ nth 1 r 0%Z = t1 /\ nth 2 r 0%Z = t2) y ->
  resolve_qualityIndicator x y =
    inr (if Z.eqb t2 102 then columnQ x 2 else if Z.eqb t1 102 then columnQ x 1
         else if Z.eqb t0 102 then columnQ x 0 else repeat qi_missing (length x)).
Proof. exact resolve_uniform. Qed.

(** ** X6: without a tag 102 every observation fails pre-QC *)

Lemma qi_mask_missing (n i : nat) :
  nth i (qi_mask 85 100 (repeat qi_missing n)) false = false.
Proof.
  unfold qi_mask. destruct (Nat.lt_ge_cases i n) as [Hi | Hi].
  - rewrite (nth_map_in _ _ i 0) by (rewrite repeat_length; exact Hi).
    rewrite nth_repeat_in by exact Hi. reflexivity.
  - apply nth_overflow. rewrite length_map, repeat_length. exact Hi.
Qed.

(** X6. In process_NC005044 (and NC005045, NC005046), when the GNAP
    columns are uniform and none of their tags is 102, the quality
    indicator handed to [pre_qc] is the [1.0E+10] sentinel, which is above
    [qiMax = 100]: [pre_qc] then passes no observation and fails all of
    them. *)
Theorem gnap_no_102_all_fail : forall (x : list (list Q)) (y : list (list Z)) (t0 t1 t2 : Z)
    (zen wcm : list Q),
  y <> [] ->
  Forall (fun r => nth 0 r 0%Z = t0 /\ nth 1 r 0%Z = t1 /\ nth 2 r 0%Z = t2) y ->
  t0 <> 102%Z -> t1 <> 102%Z -> t2 <> 102%Z ->
  exists qi, resolve_qualityIndicator x y = inr qi /\
             pre_qc_NC005044 zen qi wcm = ([], arange (length zen)).
Proof.
  intros x y t0 t1 t2 zen wcm Hne Hall H0 H1 H2.
  exists (repeat qi_missing (length x)). split.
  - rewrite (resolve_uniform x y t0 t1 t2 Hne Hall).
    apply Z.eqb_neq in H0, H1, H2. rewrite H0, H1, H2. reflexivity.
  - unfold pre_qc_NC005044. rewrite pre_qc_masks_filter.
    assert (Hf : forall i, passes_all [zen_mask zen; qi_mask 85 100 (repeat qi_missing (length x));
                                       wcm_mask wcm] i = false).
    { intros i. unfold passes_all. simpl. rewrite (mem_where (qi_mask _ _ _)), qi_mask_missing.
      rewrite Bool.andb_false_r. reflexivity. }
    f_equal.
    + induction (arange (length zen)) as [|a l IH]; cbn [filter]; [reflexivity|]. rewrite Hf. exact IH.
    + induction (arange (length zen)) as [|a l IH]; cbn [filter]; [reflexivity|]. rewrite Hf. cbn [negb]. f_equal. exact IH.
Qed.

(** ** The append block of the tank loop on a successful extraction *)

Module AppendFacts.
Import Aggregator.

Lemma get_set_same (f : field) (v : list Q) (s : agg) : get_field f (set_field f v s) = v.
Proof. destruct s, f; reflexivity. Qed.

Lemma get_set_other (f g : field) (v : list Q) (s : agg) :
  f <> g -> get_field g (set_field f v s) = get_field g s.
Proof. intros H. destruct s, f, g; try reflexivity; contradiction H; reflexivity. Qed.

Lemma stdout_set_field (f : field) (v : list Q) (s : agg) : stdout (set_field f v s) = stdout s.
Proof. destruct s, f; reflexivity. Qed.

Lemma dict_get_lookup (d : Dict) (k : string) (s : agg) :
  dict_get d k s = match dict_lookup d k with
                   | Some v => (inr v, s)
                   | None => (inl (KeyError k), s)
                   end.
Proof. unfold dict_get, dict_lookup. destruct (find _ d); reflexivity. Qed.

Definition dflt : field * string := (FLat, EmptyString).

Lemma append_all_cons (d : Dict) (fk : field * string) (l : list (field * string)) (s : agg) :
  append_all d (fk :: l) s
  = match dict_lookup d (snd fk) with
    | None => (inl (KeyError (snd fk)), s)
    | Some v => append_all d l (set_field (fst fk) (get_field (fst fk) s ++ v) s)
    end.
Proof.
  cbn [append_all]. unfold append_from, bind. rewrite dict_get_lookup.
  destruct (dict_lookup d (snd fk)); reflexivity.
Qed.

(** The appends of [append_all] happen in order up to the first key that
    is missing from the dictionary, where a [KeyError] stops them. *)
Lemma append_all_prefix (d : Dict) (l : list (field * string)) (s : agg) (n : nat) :
  (n <= length l)%nat ->
  (forall k, (k < n)%nat -> dict_lookup d (snd (nth k l dflt)) <> None) ->
  ((n < length l)%nat -> dict_lookup d (snd (nth n l dflt)) = None) ->
  NoDup (map fst l) ->
  fst (append_all d l s)
    = (if Nat.ltb n (length l) then inl (KeyError (snd (nth n l dflt))) else inr tt) /\
  stdout (snd (append_all d l s)) = stdout s /\
  (forall f, ~ In f (map fst l) -> get_field f (snd (append_all d l s)) = get_field f s) /\
  (forall k, (k < length l)%nat ->
     get_field (fst (nth k l dflt)) (snd (append_all d l s))
     = get_field (fst (nth k l dflt)) s
       ++ (if Nat.ltb k n then match dict_lookup d (snd (nth k l dflt)) with
                               | Some v => v | None => [] end
           else [])).
Proof.
  revert s n. induction l as [|[f name] l IH]; intros s n Hn Hpre Hmiss Hnd.
  - simpl in Hn. assert (n = 0%nat) by lia. subst n. simpl.
    split; [reflexivity|]. split; [reflexivity|]. split; [reflexivity|]. intros k Hk. simpl in Hk. lia.
  - simpl in Hnd. inversion Hnd as [|? ? Hnot Hnd']. subst.
    destruct n as [|n].
    + specialize (Hmiss ltac:(simpl; lia)). simpl in Hmiss.
      rewrite append_all_cons. simpl snd. rewrite Hmiss.
      split; [reflexivity|]. split; [reflexivity|]. split; [reflexivity|].
      intros k Hk. simpl. rewrite app_nil_r. reflexivity.
    + assert (Hv : dict_lookup d name <> None) by (apply (Hpre 0%nat); lia).
      destruct (dict_lookup d name) as [v|] eqn:Ev; [|contradiction].
      rewrite append_all_cons. simpl snd. rewrite Ev. cbn [fst].
      set (s1 := set_field f (get_field f s ++ v) s).
      destruct (IH s1 n) as [Hr [Ho [Hu Hk]]]; [simpl in Hn; lia | | | exact Hnd' |].
      { intros k Hk. apply (Hpre (S k)). lia. }
      { intros Hlt. apply (Hmiss ltac:(simpl; lia)). }
      destruct (append_all d l s1) as [r s2] eqn:E. simpl in Hr, Ho, Hu, Hk |- *.
      split; [rewrite Hr; reflexivity|].
      split; [rewrite Ho; apply stdout_set_field|].
      split.
      * intros g Hg. rewrite Hu by tauto. apply get_set_other. intros ->. tauto.
      * intros [|k] Hk'.
        -- simpl. rewrite Hu by exact Hnot. unfold s1. rewrite get_set_same, Ev. reflexivity.
        -- simpl. rewrite Hk by (simpl in Hk'; lia). unfold s1. rewrite get_set_other.
           ++ reflexivity.
           ++ intros Heq. apply Hnot. rewrite Heq. apply in_map, nth_In. simpl in Hk'; lia.
Qed.

Lemma amv_fields_nodup : NoDup (map fst amv_fields).
Proof. repeat constructor; simpl; intuition discriminate. Qed.

(** The tank loop's [try] block on a returned dictionary whose first
    missing key is the [n]-th of [amv_fields]. *)
Lemma tank_iteration_appends :
  forall (process_satwnd_tank : string -> string -> list (string * string) -> py_exn + Dict)
         (tankName : string) (s : agg) (d : Dict) (n : nat),
  process_satwnd_tank tankName bufrFileName (outDict tankName) = inr d ->
  (n <= 12)%nat ->
  (forall k, (k < n)%nat -> dict_lookup d (snd (nth k amv_fields dflt)) <> None) ->
  ((n < 12)%nat -> dict_lookup d (snd (nth n amv_fields dflt)) = None) ->
  let s' := snd (tank_iteration process_satwnd_tank tankName s) in
  (forall k, (k < 12)%nat ->
     get_field (fst (nth k amv_fields dflt)) s'
     = get_field (fst (nth k amv_fields dflt)) s
       ++ (if Nat.ltb k n then match dict_lookup d (snd (nth k amv_fields dflt)) with
                               | Some v => v | None => [] end
           else [])) /\
  stdout s' = stdout s ++ processing_msg tankName
                        :: (if Nat.ltb n 12 then [warning_msg tankName] else []).
Proof.
  intros p t s d n Hp Hn Hpre Hmiss s'. unfold s'.
  unfold tank_iteration, try_except, bind, lift, ret. rewrite Hp, AggregatorFacts.print_state.
  set (s0 := with_stdout s [processing_msg t]).
  assert (Hf : forall f, get_field f s0 = get_field f s) by (intros f; apply AggregatorFacts.with_stdout_fields).
  assert (Ho : stdout s0 = stdout s ++ [processing_msg t]) by (destruct s; reflexivity).
  destruct (append_all_prefix d amv_fields s0 n Hn Hpre Hmiss amv_fields_nodup)
    as [Hr [Hstd [_ Hk]]].
  destruct (append_all d amv_fields s0) as [r s2] eqn:E. cbn [fst snd] in Hr, Hstd, Hk. subst r.
  change (length amv_fields) with 12%nat in *.
  destruct (Nat.ltb n 12) eqn:En.
  - rewrite AggregatorFacts.print_state. cbn [snd]. split.
    + intros k Hk'. rewrite AggregatorFacts.with_stdout_fields, Hk, Hf by exact Hk'. reflexivity.
    + assert (Hw : forall (s3 : agg) msgs, stdout (with_stdout s3 msgs) = stdout s3 ++ msgs)
        by (intros [] ?; reflexivity).
      rewrite Hw, Hstd, Ho, <- app_assoc. reflexivity.
  - cbn [snd]. split.
    + intros k Hk'. rewrite Hk, Hf by exact Hk'. reflexivity.
    + rewrite Hstd, Ho. reflexivity.
Qed.

(** ** X7: a missing key keeps the appends made before it *)

(** X7. When the extraction of a tank returns a dictionary whose first
    missing key among the twelve of the [try] block is the [n]-th one
    ([n = 12]: none missing), the iteration appends the dictionary's
    values to the first [n] accumulators in source order and leaves the
    others unchanged; the [KeyError] at key [n] is caught by the bare
    [except], which prints the warning without undoing those appends, so
    the accumulated arrays lose their alignment. *)
Theorem append_block_partial :
  forall (process_satwnd_tank : string -> string -> list (string * string) -> py_exn + Dict)
         (tankName : string) (s : agg) (d : Dict) (n : nat),
  process_satwnd_tank tankName bufrFileName (outDict tankName) = inr d ->
  (n <= 12)%nat ->
  (forall k, (k < n)%nat -> dict_lookup d (snd (nth k amv_fields dflt)) <> None) ->
  ((n < 12)%nat -> dict_lookup d (snd (nth n amv_fields dflt)) = None) ->
  let s' := snd (tank_iteration process_satwnd_tank tankName s) in
  (forall k, (k < 12)%nat ->
     get_field (fst (nth k amv_fields dflt)) s'
     = get_field (fst (nth k amv_fields dflt)) s
       ++ (if Nat.ltb k n then match dict_lookup d (snd (nth k amv_fields dflt)) with
                               | Some v => v | None => [] end
           else [])) /\
  stdout s' = stdout s ++ processing_msg tankName
                        :: (if Nat.ltb n 12 then [warning_msg tankName] else []).
Proof. exact tank_iteration_appends. Qed.

(** Witness of X7: a dictionary without [windDirection] (the fifth key). *)
Lemma append_block_partial_witness :
  let d : Dict := [("latitude", [1]); ("longitude", [2]); ("pressure", [3]);
                   ("windSpeed", [4]); ("year", [5])]%string in
  let p := fun (_ : string) (_ : string) (_ : list (string * string)) => @inr py_exn Dict d in
  let s' := snd (tank_iteration p "NC005030"%string agg_init) in
  (forall k, (k < 12)%nat ->
     get_field (fst (nth k amv_fields dflt)) s'
     = get_field (fst (nth k amv_fields dflt)) agg_init
       ++ (if Nat.ltb k 4 then match dict_lookup d (snd (nth k amv_fields dflt)) with
                               | Some v => v | None => [] end
           else [])) /\
  stdout s' = stdout agg_init ++ processing_msg "NC005030"%string
                               :: (if Nat.ltb 4 12 then [warning_msg "NC005030"%string] else []).
Proof.
  intros d p.
  apply (append_block_partial p "NC005030"%string agg_init d 4%nat eq_refl).
  - lia.
  - intros k Hk. destruct k as [|[|[|[|k]]]]; try discriminate. lia.
  - intros _. reflexivity.
Defined.

End AppendFacts.

(** ** The per-type report *)

Lemma in_insertQ (x y : Q) (l : list Q) : In y (insertQ x l) <-> x = y \/ In y l.
Proof.
  induction l as [|a l IH]; simpl; [tauto|].
  destruct (Qle_bool x a); simpl; [tauto|]. rewrite IH. tauto.
Qed.

Lemma in_sortQ (y : Q) (l : list Q) : In y (sortQ l) <-> In y l.
Proof.
  induction l as [|a l IH]; simpl; [tauto|]. rewrite in_insertQ, IH. tauto.
Qed.

Lemma in_dedupQ (y : Q) (l : list Q) : In y (dedupQ l) -> In y l.
Proof.
  induction l as [|a l IH]; [simpl; tauto|].
  destruct l as [|b l']; [simpl; tauto|]. intros H.
  change (dedupQ (a :: b :: l'))
    with (if Qeq_bool a b then dedupQ (b :: l') else a :: dedupQ (b :: l')) in H.
  destruct (Qeq_bool a b).
  - right. apply IH, H.
  - destruct H as [H | H]; [left; exact H | right; apply IH, H].
Qed.

(** Every value of a list has an equal representative after [dedupQ]. *)
Lemma dedupQ_rep (y : Q) (l : list Q) : In y l -> exists z, In z (dedupQ l) /\ z == y.
Proof.
  revert y. induction l as [|a l IH]; intros y; simpl; [tauto|].
  intros Hy. destruct l as [|b l'].
  - destruct Hy as [-> | []]. exists y. simpl. split; [left; reflexivity | apply Qeq_refl].
  - destruct (Qeq_bool a b) eqn:E.
    + destruct Hy as [-> | Hy].
      * destruct (IH b (or_introl eq_refl)) as [z [Hz Hzb]]. exists z. split; [exact Hz|].
        apply Qeq_bool_iff in E. rewrite Hzb, E. apply Qeq_refl.
      * exact (IH y Hy).
    + destruct Hy as [-> | Hy].
      * exists y. split; [left; reflexivity | apply Qeq_refl].
      * destruct (IH y Hy) as [z [Hz Hzy]]. exists z. split; [right; exact Hz | exact Hzy].
Qed.

Lemma length_where_from_filter {A} (f : A -> bool) (l : list A) (k : nat) :
  length (where_from k (map f l)) = length (filter f l).
Proof.
  revert k. induction l as [|a l IH]; intros k; simpl; [reflexivity|].
  destruct (f a); simpl; rewrite IH; reflexivity.
Qed.

Lemma length_where_filter {A} (f : A -> bool) (l : list A) :
  length (where_ (map f l)) = length (filter f l).
Proof. apply length_where_from_filter. Qed.

Lemma where_bound (mask : list bool) (j : nat) : In j (where_ mask) -> (j < length mask)%nat.
Proof.
  rewrite where_spec. intros H. destruct (Nat.lt_ge_cases j (length mask)) as [Hl | Hge]; [exact Hl|].
  rewrite nth_overflow in H by exact Hge. discriminate.
Qed.

Lemma in_take_idx (v : list Q) (idx : list nat) (x : Q) :
  (forall j, In j idx -> (j < length v)%nat) -> In x (take_idx v idx) -> In x v.
Proof.
  unfold take_idx. intros Hb Hx. apply in_map_iff in Hx as [j [<- Hj]].
  apply nth_In, Hb, Hj.
Qed.

Lemma pm_one_split (l : list Q) :
  Forall (fun q => q == 1 \/ q == -1) l ->
  (length (filter (fun x => Qeq_bool x 1) l) + length (filter (fun x => Qeq_bool x (-1)) l))%nat
  = length l.
Proof.
  induction 1 as [|a l Ha _ IH]; simpl; [reflexivity|].
  destruct Ha as [Ha | Ha].
  - rewrite (Qeq_bool_compat a 1 1 Ha), (Qeq_bool_compat a 1 (-1) Ha). simpl. lia.
  - rewrite (Qeq_bool_compat a (-1) 1 Ha), (Qeq_bool_compat a (-1) (-1) Ha). simpl. lia.
Qed.

(** ** X8: the report divides by a positive count and splits it *)

(** X8. In the report loop of extract_bulk_stats.py, every observation
    type present in [obTyp] is reported (under an equal value), and for
    each reported type the count [n] is at least one, so the percentages
    [100*p/n] and [100*f/n] never divide by zero; when [obPQC] is aligned
    with [obTyp] and holds only [1] and [-1], the pass and fail counts add
    up to [n]. *)
Theorem type_report_counts : forall (obTyp obPQC : list Q),
  (forall x, In x obTyp -> exists t c, In (t, c) (type_report obTyp obPQC) /\ t == x) /\
  forall (t : Q) (n p f : nat),
    In (t, (n, p, f)) (type_report obTyp obPQC) ->
    (1 <= n)%nat /\
    (length obPQC = length obTyp -> Forall (fun q => q == 1 \/ q == -1) obPQC -> (p + f)%nat = n).
Proof.
  intros obTyp obPQC. split.
  - intros x Hx. unfold type_report, uniqueQ.
    destruct (dedupQ_rep x (sortQ obTyp) (proj2 (in_sortQ x obTyp) Hx)) as [z [Hz Hzx]].
    exists z, (type_counts obTyp obPQC z). split; [apply in_map_iff; exists z; split; [reflexivity | exact Hz] | exact Hzx].
  - intros t n p f Hin. unfold type_report in Hin. apply in_map_iff in Hin as [t' [Heq Ht']].
    unfold type_counts in Heq. injection Heq as <- Hn Hp Hf.
    apply in_dedupQ in Ht'. apply (proj1 (in_sortQ _ _)) in Ht'.
    set (i := where_ (map (fun x => Qeq_bool x t') obTyp)) in *.
    split.
    + subst n. destruct (In_nth obTyp t' 0 Ht') as [j [Hj Hjt]].
      assert (Hji : In j i).
      { unfold i. apply where_spec. rewrite (nth_map_in _ obTyp j 0) by exact Hj.
        rewrite Hjt. apply Qeq_bool_refl. }
      destruct i as [|a i']; [contradiction | simpl; lia].
    + intros Hlen Hpm. subst n p f.
      rewrite !length_where_filter, pm_one_split.
      * unfold take_idx. apply length_map.
      * apply Forall_forall. intros q Hq. apply (in_take_idx obPQC i q) in Hq.
        -- rewrite Forall_forall in Hpm. apply Hpm, Hq.
        -- intros j Hj. apply where_bound in Hj. rewrite length_map in Hj. lia.
Qed.

(** Witness of X8: types [[245, 245, 252]] with flags [[1, -1, 1]]. *)
Lemma type_report_counts_witness :
  In (245, (2%nat, 1%nat, 1%nat)) (type_report [245; 245; 252] [1; -1; 1]) /\
  length [1; -1; 1] = length [245; 245; 252] /\
  Forall (fun q => q == 1 \/ q == -1) [1; -1; 1] /\
  (1 <= 2)%nat /\ (1 + 1)%nat = 2%nat.
Proof.
  assert (Hin : In (245, (2%nat, 1%nat, 1%nat)) (type_report [245; 245; 252] [1; -1; 1]))
    by (vm_compute; tauto).
  assert (Hpm : Forall (fun q => q == 1 \/ q == -1) [1; -1; 1])
    by (repeat constructor; first [left; reflexivity | right; reflexivity]).
  pose proof (proj2 (type_report_counts [245; 245; 252] [1; -1; 1]) 245 2%nat 1%nat 1%nat Hin)
    as [Hn Hpf].
  split; [exact Hin|]. split; [reflexivity|]. split; [exact Hpm|].
  split; [exact Hn | exact (Hpf eq_refl Hpm)].
Defined.

(** ** Witnesses of the extraction properties *)

(** Witness of X1: observation 1 (zenith angle 70) of the NC005030
    scenario batch. *)
Lemma preQC_marks_passing_witness :
  Nat.lt 1 (qc_nobs NC005030 (zen_scenario NC005030)) /\
  let preQC := preQC_vector (fst (screen NC005030 (zen_scenario NC005030)))
                            (snd (screen NC005030 (zen_scenario NC005030))) in
  (nth 1 preQC 0%Z = 1%Z <->
     Forall (fun m => nth 1 m false = true) (qc_masks NC005030 (zen_scenario NC005030))) /\
  (nth 1 preQC 0%Z = 1%Z \/ nth 1 preQC 0%Z = (-1)%Z).
Proof.
  assert (H : Nat.lt 1 (qc_nobs NC005030 (zen_scenario NC005030))) by (simpl; lia).
  split; [exact H|].
  exact (proj2 (preQC_marks_passing NC005030 (zen_scenario NC005030)) 1%nat H).
Defined.

(** Witness of X2: a VIS wind (method 2) of a JMA tank. *)
Lemma JMA_obType_by_method_witness :
  length [1; 2; 3] = length [1%Z; 1%Z; (-1)%Z] /\
  Nat.lt 1 (length [1%Z; 1%Z; (-1)%Z]) /\
  nth 1 (obType_NC005044 [1%Z; 1%Z; (-1)%Z] [1; 2; 3]) 0%Z = 242%Z.
Proof.
  assert (Hi : Nat.lt 1 (length [1%Z; 1%Z; (-1)%Z])) by (simpl; lia).
  split; [reflexivity|]. split; [exact Hi|].
  exact (proj1 (proj2 (proj2 (JMA_obType_by_method [1%Z; 1%Z; (-1)%Z] [1; 2; 3] 1%nat eq_refl Hi)))
           (Qeq_refl 2)).
Defined.

(** Witness of X3: a water-vapour wind with method 5 of a NESDIS tank. *)
Lemma NESDIS_obType_by_method_witness :
  length [1; 5] = length [1%Z; (-1)%Z] /\
  Nat.lt 1 (length [1%Z; (-1)%Z]) /\
  nth 1 (obType_NC005067 [1%Z; (-1)%Z] [1; 5]) 0%Z = 254%Z.
Proof.
  assert (Hi : Nat.lt 1 (length [1%Z; (-1)%Z])) by (simpl; lia).
  assert (H5 : 4 <= nth 1 [1; 5] 0) by (apply Qle_bool_iff; reflexivity).
  split; [reflexivity|]. split; [exact Hi|].
  exact (proj1 (proj2 (proj2 (proj2 (proj2
           (NESDIS_obType_by_method [1%Z; (-1)%Z] [1; 5] 1%nat eq_refl Hi))))) H5).
Defined.

(** Witness of X4: a VIS wind (method 2) of NC005070 passes pre-QC and
    keeps type -1. *)
Lemma NC005070_preqc_obtype_witness :
  Nat.lt 1 (length [1; 2; 3]) /\
  nth 1 (fst (process_NC005070_qc [1; 2; 3])) 0%Z = 1%Z /\
  nth 1 (snd (process_NC005070_qc [1; 2; 3])) 0%Z = (-1)%Z.
Proof.
  assert (Hi : Nat.lt 1 (length [1; 2; 3])) by (simpl; lia).
  pose proof (NC005070_preqc_obtype [1; 2; 3] 1%nat Hi) as H.
  destruct (process_NC005070_qc [1; 2; 3]) as [preQC obType] eqn:E. cbn [fst snd].
  destruct H as [_ [_ [Hp [_ [H2 _]]]]].
  split; [exact Hi|]. split; [exact Hp | exact (H2 (Qeq_refl 2))].
Defined.

(** Witness of X5: GNAP tags [[1, 102, 7]] in every row take PCCF column 1. *)
Lemma gnap_uniform_resolution_witness :
  [[1%Z; 102%Z; 7%Z]; [1%Z; 102%Z; 7%Z]] <> [] /\
  Forall (fun r => nth 0 r 0%Z = 1%Z /\ nth 1 r 0%Z = 102%Z /\ nth 2 r 0%Z = 7%Z)
         [[1%Z; 102%Z; 7%Z]; [1%Z; 102%Z; 7%Z]] /\
  resolve_qualityIndicator [[80; 90; 70]; [85; 95; 60]] [[1%Z; 102%Z; 7%Z]; [1%Z; 102%Z; 7%Z]]
    = inr [90; 95].
Proof.
  assert (Hne : [[1%Z; 102%Z; 7%Z]; [1%Z; 102%Z; 7%Z]] <> []) by discriminate.
  assert (Hall : Forall (fun r => nth 0 r 0%Z = 1%Z /\ nth 1 r 0%Z = 102%Z /\ nth 2 r 0%Z = 7%Z)
                        [[1%Z; 102%Z; 7%Z]; [1%Z; 102%Z; 7%Z]])
    by (repeat constructor).
  split; [exact Hne|]. split; [exact Hall|].
  rewrite (gnap_uniform_resolution [[80; 90; 70]; [85; 95; 60]] _ 1%Z 102%Z 7%Z Hne Hall).
  reflexivity.
Defined.

(** Witness of X6: one observation whose GNAP tags are [[1, 5, 7]]. *)
Lemma gnap_no_102_all_fail_witness :
  exists qi, resolve_qualityIndicator [[80; 90; 70]] [[1%Z; 5%Z; 7%Z]] = inr qi /\
             pre_qc_NC005044 [10] qi [1] = ([], arange (length [10])).
Proof.
  apply (gnap_no_102_all_fail [[80; 90; 70]] [[1%Z; 5%Z; 7%Z]] 1%Z 5%Z 7%Z [10] [1]).
  - discriminate.
  - repeat constructor.
  - discriminate.
  - discriminate.
  - discriminate.
Defined.

(** ** The extraction loops with the tank loop's [outDict] *)

Module ExtractionFacts.
Import Extraction.

Lemma merged_NC005030 :
  update (Aggregator.outDict "NC005030") queryDict_NC005030
  = Aggregator.outDict "NC005030"%string ++
    [("NC005030/PRLC[1]", "pressure"); ("NC005030/SAZA", "zenithAngle");
     ("NC005030/AMVQIC/PCCF", "QIEE"); ("NC005030/AMVIVR/CVWD", "coefficientOfVariation")]%string.
Proof. vm_compute. reflexivity. Qed.

Lemma col_Mat (rows : list (list Q)) (j : nat) :
  Forall (fun r => (j < length r)%nat) rows ->
  col (Mat rows) j = Some (map (fun r => nth j r 0) rows).
Proof.
  intros H. simpl. replace (forallb _ rows) with true; [reflexivity|].
  symmetry. apply forallb_forall. intros r Hr. rewrite Forall_forall in H. apply Nat.ltb_lt, H, Hr.
Qed.

(** The outputDict of process_NC005030 for the tank loop's request: the
    request's [NC005030/PRLC] and the tank's own [NC005030/PRLC[1]] both
    name [pressure], so the loop appends that vector twice. *)
Lemma NC005030_outDict_run (get : string -> ndarray) (qiee cvwd : list (list Q)) :
  get "QIEE"%string = Mat qiee -> Forall (fun r => (4 <= length r)%nat) qiee ->
  get "coefficientOfVariation"%string = Mat cvwd -> Forall (fun r => (1 <= length r)%nat) cvwd ->
  let p := flat (get "pressure"%string) in
  let idx := pre_qc_NC005030 (p ++ p) (flat (get "windSpeed"%string))
               (flat (get "zenithAngle"%string)) (map (fun r => nth 1 r 0) qiee)
               (map (fun r => nth 0 r 0) cvwd) (map (fun r => nth 3 r 0) qiee) in
  let preQC := preQC_vector (fst idx) (snd idx) in
  process_NC005030 (Aggregator.outDict "NC005030") get
  = Some ([("latitude", flat (get "latitude"%string));
           ("longitude", flat (get "longitude"%string));
           ("pressure", (p ++ p)%list);
           ("windSpeed", flat (get "windSpeed"%string));
           ("windDirection", flat (get "windDirection"%string));
           ("year", flat (get "year"%string));
           ("month", flat (get "month"%string));
           ("day", flat (get "day"%string));
           ("hour", flat (get "hour"%string));
           ("minute", flat (get "minute"%string));
           ("preQC", map inject_Z preQC);
           ("observationType", map inject_Z (repeat 245%Z (length preQC)))]%string).
Proof.
  intros HQ HQl HC HCl p idx preQC.
  unfold process_NC005030. rewrite merged_NC005030.
  cbn -[flat col pre_qc_NC005030 preQC_vector].
  rewrite HQ.
  rewrite (col_Mat qiee 1) by (eapply Forall_impl; [|exact HQl]; simpl; intros; lia).
  rewrite (col_Mat qiee 3) by (eapply Forall_impl; [|exact HQl]; simpl; intros; lia).
  cbn -[flat col pre_qc_NC005030 preQC_vector].
  rewrite HC.
  rewrite (col_Mat cvwd 0) by (eapply Forall_impl; [|exact HCl]; simpl; intros; lia).
  cbn -[flat col pre_qc_NC005030 preQC_vector].
  fold p. fold idx. destruct idx as [ip ifl]. reflexivity.
Qed.

(** ** X9: NC005030 doubles the pressure vector for the tank loop's request *)

(** X9. Called with the tank loop's [outDict] (which asks for
    [NC005030/PRLC]), process_NC005030 merges in its own
    [NC005030/PRLC[1]], which also names [pressure]: the returned
    [pressure] is the pressure vector twice, [pre_qc] screens [2N]
    pressures ([N] the length of that vector), and [preQC] and
    [observationType] get [2N] entries, while each other requested variable
    is its vector once. Every index from the number of zenith angles up to
    [2N] fails pre-QC. *)
Theorem NC005030_pressure_queried_twice :
  forall (get : string -> ndarray) (qiee cvwd : list (list Q)),
  get "QIEE"%string = Mat qiee -> Forall (fun r => (4 <= length r)%nat) qiee ->
  get "coefficientOfVariation"%string = Mat cvwd -> Forall (fun r => (1 <= length r)%nat) cvwd ->
  exists (od : pydict (list Q)) (preQC : list Z),
    process_NC005030 (Aggregator.outDict "NC005030") get = Some od /\
    getitem od "pressure" = Some (flat (get "pressure"%string) ++ flat (get "pressure"%string)) /\
    Forall (fun name => getitem od name = Some (flat (get name)))
      ["latitude"; "longitude"; "windSpeed"; "windDirection"; "year"; "month"; "day";
       "hour"; "minute"]%string /\
    getitem od "preQC" = Some (map inject_Z preQC) /\
    length preQC = (2 * length (flat (get "pressure"%string)))%nat /\
    getitem od "observationType" = Some (map inject_Z (repeat 245%Z (length preQC))) /\
    (forall i, (length (flat (get "zenithAngle"%string)) <= i)%nat ->
               (i < 2 * length (flat (get "pressure"%string)))%nat ->
               nth i preQC 0%Z = (-1)%Z).
Proof.
  intros get qiee cvwd HQ HQl HC HCl.
  pose proof (NC005030_outDict_run get qiee cvwd HQ HQl HC HCl) as Hrun. cbv zeta in Hrun.
  set (p := flat (get "pressure"%string)) in *.
  set (masks := [zen_mask (flat (get "zenithAngle"%string));
                 qi_mask 90 100 (map (fun r => nth 1 r 0) qiee);
                 pre_mask 15000 (p ++ p); cov_mask (map (fun r => nth 0 r 0) cvwd);
                 ee_mask (flat (get "windSpeed"%string)) (map (fun r => nth 3 r 0) qiee)]).
  assert (Hidx : pre_qc_NC005030 (p ++ p) (flat (get "windSpeed"%string))
                   (flat (get "zenithAngle"%string)) (map (fun r => nth 1 r 0) qiee)
                   (map (fun r => nth 0 r 0) cvwd) (map (fun r => nth 3 r 0) qiee)
                 = pre_qc_masks (2 * length p) masks).
  { unfold pre_qc_NC005030. rewrite length_app. f_equal. lia. }
  rewrite Hidx, pre_qc_masks_filter in Hrun. cbn [fst snd] in Hrun.
  eexists. eexists. split; [exact Hrun|].
  split; [reflexivity|].
  split; [repeat constructor|].
  split; [reflexivity|].
  split.
  { unfold preQC_vector. rewrite length_fill_idx, repeat_length, length_filter_split.
    unfold arange. apply length_seq. }
  split; [reflexivity|].
  intros i Hz Hi. rewrite preQC_vector_filter by exact Hi.
  replace (passes_all masks i) with false; [reflexivity|].
  symmetry. unfold passes_all, masks. cbn [forallb]. rewrite mem_where.
  rewrite nth_overflow; [reflexivity|]. unfold zen_mask. rewrite length_map. exact Hz.
Qed.

Lemma preQC_vector_masks_length (n : nat) (masks : list (list bool)) :
  length (preQC_vector (fst (pre_qc_masks n masks)) (snd (pre_qc_masks n masks))) = n.
Proof.
  rewrite pre_qc_masks_filter. unfold preQC_vector. cbn [fst snd].
  rewrite length_fill_idx, repeat_length, length_filter_split. apply length_seq.
Qed.

(** ** X10: a successful NC005030 iteration misaligns the accumulators *)

(** X10. When every requested variable of NC005030 has [N] values and the
    dispatcher returns process_NC005030's dictionary, the tank loop's
    iteration completes without a warning and appends [N] values to each
    of [obLat], [obLon], [obSpd], [obDir], [obYr], [obMon], [obDay], [obHr]
    and [obMin], but [2N] values to [obPre], [obTyp] and [obPQC], so the
    accumulated arrays no longer line up observation by observation. *)
Theorem NC005030_iteration_misaligned :
  forall (process_satwnd_tank : string -> string -> list (string * string) -> py_exn + Aggregator.Dict)
         (get : string -> ndarray) (qiee cvwd : list (list Q)) (N : nat)
         (od : pydict (list Q)) (s : Aggregator.agg),
  get "QIEE"%string = Mat qiee -> Forall (fun r => (4 <= length r)%nat) qiee ->
  get "coefficientOfVariation"%string = Mat cvwd -> Forall (fun r => (1 <= length r)%nat) cvwd ->
  Forall (fun name => length (flat (get name)) = N)
    ["latitude"; "longitude"; "pressure"; "windSpeed"; "windDirection"; "year"; "month"; "day";
     "hour"; "minute"]%string ->
  process_NC005030 (Aggregator.outDict "NC005030") get = Some od ->
  process_satwnd_tank "NC005030"%string Aggregator.bufrFileName (Aggregator.outDict "NC005030") = inr od ->
  let s' := snd (Aggregator.tank_iteration process_satwnd_tank "NC005030"%string s) in
  Aggregator.stdout s' = Aggregator.stdout s ++ [Aggregator.processing_msg "NC005030"%string] /\
  Forall (fun f => length (Aggregator.get_field f s') = (length (Aggregator.get_field f s) + N)%nat)
    [Aggregator.FLat; Aggregator.FLon; Aggregator.FSpd; Aggregator.FDir; Aggregator.FYr;
     Aggregator.FMon; Aggregator.FDay; Aggregator.FHr; Aggregator.FMin] /\
  Forall (fun f => length (Aggregator.get_field f s') = (length (Aggregator.get_field f s) + 2 * N)%nat)
    [Aggregator.FPre; Aggregator.FTyp; Aggregator.FPQC].
Proof.
  intros p get qiee cvwd N od s HQ HQl HC HCl HN Hod Hp s'.
  pose proof (NC005030_outDict_run get qiee cvwd HQ HQl HC HCl) as Hrun. cbv zeta in Hrun.
  rewrite Hod in Hrun.
  assert (Hs : forall A (a b : A), Some a = Some b -> a = b) by congruence.
  apply Hs in Hrun.
  set (preQC := preQC_vector _ _) in Hrun.
  assert (HpQ : length preQC = (2 * N)%nat).
  { unfold preQC, pre_qc_NC005030. rewrite preQC_vector_masks_length, length_app.
    inversion HN as [|? ? _ HN1]. inversion HN1 as [|? ? _ HN2]. inversion HN2 as [|? ? Hpr _]. lia. }
  destruct (AppendFacts.tank_iteration_appends p "NC005030"%string s _ 12%nat Hp)
    as [Happ Hout]; [lia | | intros H; lia |].
  { intros k Hk. rewrite Hrun. do 12 (destruct k as [|k]; [discriminate|]). lia. }
  split; [exact Hout|].
  assert (Hk : forall k, (k < 12)%nat ->
    length (Aggregator.get_field (fst (nth k Aggregator.amv_fields AppendFacts.dflt)) s')
    = (length (Aggregator.get_field (fst (nth k Aggregator.amv_fields AppendFacts.dflt)) s)
       + length (match dict_lookup od (snd (nth k Aggregator.amv_fields AppendFacts.dflt)) with
                 | Some v => v | None => [] end))%nat).
  { intros k Hlt. unfold s'. rewrite (Happ k Hlt), length_app.
    apply Nat.ltb_lt in Hlt. rewrite Hlt. reflexivity. }
  clearbody s'. rewrite Hrun in Hk. clear Happ Hout Hp Hrun Hod Hs.
  assert (L : forall name, In name ["latitude"; "longitude"; "pressure"; "windSpeed";
                "windDirection"; "year"; "month"; "day"; "hour"; "minute"]%string ->
              length (flat (get name)) = N) by (rewrite Forall_forall in HN; exact HN).
  clearbody preQC.
  pose proof (Hk 0%nat ltac:(lia)) as K0. pose proof (Hk 1%nat ltac:(lia)) as K1.
  pose proof (Hk 2%nat ltac:(lia)) as K2. pose proof (Hk 3%nat ltac:(lia)) as K3.
  pose proof (Hk 4%nat ltac:(lia)) as K4. pose proof (Hk 5%nat ltac:(lia)) as K5.
  pose proof (Hk 6%nat ltac:(lia)) as K6. pose proof (Hk 7%nat ltac:(lia)) as K7.
  pose proof (Hk 8%nat ltac:(lia)) as K8. pose proof (Hk 9%nat ltac:(lia)) as K9.
  pose proof (Hk 10%nat ltac:(lia)) as K10. pose proof (Hk 11%nat ltac:(lia)) as K11.
  cbn in K0, K1, K2, K3, K4, K5, K6, K7, K8, K9, K10, K11.
  pose proof (L "latitude"%string ltac:(simpl; tauto)) as L0.
  pose proof (L "longitude"%string ltac:(simpl; tauto)) as L1.
  pose proof (L "pressure"%string ltac:(simpl; tauto)) as L2.
  pose proof (L "windSpeed"%string ltac:(simpl; tauto)) as L3.
  pose proof (L "windDirection"%string ltac:(simpl; tauto)) as L4.
  pose proof (L "year"%string ltac:(simpl; tauto)) as L5.
  pose proof (L "month"%string ltac:(simpl; tauto)) as L6.
  pose proof (L "day"%string ltac:(simpl; tauto)) as L7.
  pose proof (L "hour"%string ltac:(simpl; tauto)) as L8.
  pose proof (L "minute"%string ltac:(simpl; tauto)) as L9.
  split; repeat constructor; cbn [Aggregator.get_field];
    first [rewrite K0 | rewrite K1 | rewrite K2 | rewrite K3 | rewrite K4 | rewrite K5
          | rewrite K6 | rewrite K7 | rewrite K8 | rewrite K9 | rewrite K10 | rewrite K11];
    rewrite ?length_app, ?length_map, ?repeat_length, ?HpQ,
      ?L0, ?L1, ?L2, ?L3, ?L4, ?L5, ?L6, ?L7, ?L8, ?L9; lia.
Qed.

Lemma merged_NC005080 :
  update (Aggregator.outDict "NC005080") queryDict_NC005080
  = Aggregator.outDict "NC005080"%string ++
    [("NC005080/SWCM", "windComputationMethod")]%string.
Proof. vm_compute. reflexivity. Qed.

(** The outputDict of process_NC005080 for the tank loop's request. *)
Lemma NC005080_outDict_run (get : string -> ndarray) :
  let wcm := flat (get "windComputationMethod"%string) in
  process_NC005080 (Aggregator.outDict "NC005080") get
  = [("latitude", flat (get "latitude"%string));
     ("longitude", flat (get "longitude"%string));
     ("pressure", flat (get "pressure"%string));
     ("windSpeed", flat (get "windSpeed"%string));
     ("windDirection", flat (get "windDirection"%string));
     ("year", flat (get "year"%string));
     ("month", flat (get "month"%string));
     ("day", flat (get "day"%string));
     ("hour", flat (get "hour"%string));
     ("minute", flat (get "minute"%string));
     ("preQC", map inject_Z (fst (process_NC005080_qc wcm)));
     ("observationType", map inject_Z (snd (process_NC005080_qc wcm)))]%string.
Proof.
  intros wcm. unfold process_NC005080. rewrite merged_NC005080.
  cbn -[flat process_NC005080_qc].
  fold wcm. destruct (process_NC005080_qc wcm) as [preQC obType]. reflexivity.
Qed.

Lemma length_mask_assign (arr : list Z) (mask : list bool) (v : Z) :
  length (mask_assign arr mask v) = Nat.min (length arr) (length mask).
Proof. unfold mask_assign. rewrite length_map. apply length_combine. Qed.

(** ** X11: a successful NC005080 iteration keeps the accumulators aligned *)

(** X11. When every requested variable of NC005080 and its wind
    computation method have [N] values and the dispatcher returns
    process_NC005080's dictionary, the tank loop's iteration completes
    without a warning and appends exactly [N] values to each of the twelve
    accumulators: NC005080's own query adds only [windComputationMethod],
    which the tank loop does not request. *)
Theorem NC005080_iteration_aligned :
  forall (process_satwnd_tank : string -> string -> list (string * string) -> py_exn + Aggregator.Dict)
         (get : string -> ndarray) (N : nat) (s : Aggregator.agg),
  Forall (fun name => length (flat (get name)) = N)
    ["latitude"; "longitude"; "pressure"; "windSpeed"; "windDirection"; "year"; "month"; "day";
     "hour"; "minute"; "windComputationMethod"]%string ->
  process_satwnd_tank "NC005080"%string Aggregator.bufrFileName (Aggregator.outDict "NC005080")
    = inr (process_NC005080 (Aggregator.outDict "NC005080") get) ->
  let s' := snd (Aggregator.tank_iteration process_satwnd_tank "NC005080"%string s) in
  Aggregator.stdout s' = Aggregator.stdout s ++ [Aggregator.processing_msg "NC005080"%string] /\
  Forall (fun f => length (Aggregator.get_field f s') = (length (Aggregator.get_field f s) + N)%nat)
    [Aggregator.FLat; Aggregator.FLon; Aggregator.FPre; Aggregator.FSpd; Aggregator.FDir;
     Aggregator.FYr; Aggregator.FMon; Aggregator.FDay; Aggregator.FHr; Aggregator.FMin;
     Aggregator.FTyp; Aggregator.FPQC].
Proof.
  intros p get N s HN Hp s'.
  rewrite (NC005080_outDict_run get) in Hp. cbv zeta in Hp.
  set (od := [("latitude", _); _; _; _; _; _; _; _; _; _; _; _]%string) in Hp.
  destruct (AppendFacts.tank_iteration_appends p "NC005080"%string s od 12%nat Hp)
    as [Happ Hout]; [lia | | intros H; lia |].
  { intros k Hk. unfold od. do 12 (destruct k as [|k]; [discriminate|]). lia. }
  split; [exact Hout|].
  assert (Hk : forall k, (k < 12)%nat ->
    length (Aggregator.get_field (fst (nth k Aggregator.amv_fields AppendFacts.dflt)) s')
    = (length (Aggregator.get_field (fst (nth k Aggregator.amv_fields AppendFacts.dflt)) s)
       + length (match dict_lookup od (snd (nth k Aggregator.amv_fields AppendFacts.dflt)) with
                 | Some v => v | None => [] end))%nat).
  { intros k Hlt. unfold s'. rewrite (Happ k Hlt), length_app.
    apply Nat.ltb_lt in Hlt. rewrite Hlt. reflexivity. }
  clearbody s'. unfold od in Hk. clear Happ Hout Hp od.
  assert (L : forall name, In name ["latitude"; "longitude"; "pressure"; "windSpeed";
                "windDirection"; "year"; "month"; "day"; "hour"; "minute";
                "windComputationMethod"]%string ->
              length (flat (get name)) = N) by (rewrite Forall_forall in HN; exact HN).
  set (wcm := flat (get "windComputationMethod"%string)) in Hk.
  assert (Lw : length wcm = N) by (apply L; simpl; tauto).
  assert (Hq : length (fst (process_NC005080_qc wcm)) = N)
    by (unfold process_NC005080_qc; cbn [fst]; rewrite repeat_length; exact Lw).
  assert (Ht : length (snd (process_NC005080_qc wcm)) = N)
    by (unfold process_NC005080_qc; cbn [snd];
        rewrite length_mask_assign, !repeat_length, length_map, Lw; apply Nat.min_id).
  clearbody wcm.
  pose proof (Hk 0%nat ltac:(lia)) as K0. pose proof (Hk 1%nat ltac:(lia)) as K1.
  pose proof (Hk 2%nat ltac:(lia)) as K2. pose proof (Hk 3%nat ltac:(lia)) as K3.
  pose proof (Hk 4%nat ltac:(lia)) as K4. pose proof (Hk 5%nat ltac:(lia)) as K5.
  pose proof (Hk 6%nat ltac:(lia)) as K6. pose proof (Hk 7%nat ltac:(lia)) as K7.
  pose proof (Hk 8%nat ltac:(lia)) as K8. pose proof (Hk 9%nat ltac:(lia)) as K9.
  pose proof (Hk 10%nat ltac:(lia)) as K10. pose proof (Hk 11%nat ltac:(lia)) as K11.
  cbn -[process_NC005080_qc] in K0, K1, K2, K3, K4, K5, K6, K7, K8, K9, K10, K11.
  pose proof (L "latitude"%string ltac:(simpl; tauto)) as L0.
  pose proof (L "longitude"%string ltac:(simpl; tauto)) as L1.
  pose proof (L "pressure"%string ltac:(simpl; tauto)) as L2.
  pose proof (L "windSpeed"%string ltac:(simpl; tauto)) as L3.
  pose proof (L "windDirection"%string ltac:(simpl; tauto)) as L4.
  pose proof (L "year"%string ltac:(simpl; tauto)) as L5.
  pose proof (L "month"%string ltac:(simpl; tauto)) as L6.
  pose proof (L "day"%string ltac:(simpl; tauto)) as L7.
  pose proof (L "hour"%string ltac:(simpl; tauto)) as L8.
  pose proof (L "minute"%string ltac:(simpl; tauto)) as L9.
  repeat constructor; cbn [Aggregator.get_field];
    first [rewrite K0 | rewrite K1 | rewrite K2 | rewrite K3 | rewrite K4 | rewrite K5
          | rewrite K6 | rewrite K7 | rewrite K8 | rewrite K9 | rewrite K10 | rewrite K11];
    rewrite ?length_map, ?Hq, ?Ht,
      ?L0, ?L1, ?L2, ?L3, ?L4, ?L5, ?L6, ?L7, ?L8, ?L9; lia.
Qed.

End ExtractionFacts.



(** ** Witnesses of the extraction-loop properties *)

Module ExtractionWitnesses.
Import Extraction.

(** Witness of X9: one observation with pressure 20000. *)
Lemma NC005030_pressure_queried_twice_witness :
  exists (od : pydict (list Q)) (preQC : list Z),
    process_NC005030 (Aggregator.outDict "NC005030") demo_get = Some od /\
    getitem od "pressure" = Some (flat (demo_get "pressure"%string) ++ flat (demo_get "pressure"%string)) /\
    Forall (fun name => getitem od name = Some (flat (demo_get name)))
      ["latitude"; "longitude"; "windSpeed"; "windDirection"; "year"; "month"; "day";
       "hour"; "minute"]%string /\
    getitem od "preQC" = Some (map inject_Z preQC) /\
    length preQC = (2 * length (flat (demo_get "pressure"%string)))%nat /\
    getitem od "observationType" = Some (map inject_Z (repeat 245%Z (length preQC))) /\
    (forall i, (length (flat (demo_get "zenithAngle"%string)) <= i)%nat ->
               (i < 2 * length (flat (demo_get "pressure"%string)))%nat ->
               nth i preQC 0%Z = (-1)%Z).
Proof.
  apply (ExtractionFacts.NC005030_pressure_queried_twice demo_get [[0; 95; 0; 1]] [[0.1; 0]]).
  - reflexivity.
  - repeat constructor.
  - reflexivity.
  - repeat constructor.
Defined.

(** Witness of X10: one observation per variable, from the empty
    accumulators. *)
Lemma NC005030_iteration_misaligned_witness :
  let od := match process_NC005030 (Aggregator.outDict "NC005030") demo_get with
            | Some od => od | None => [] end in
  let p := fun (_ : string) (_ : string) (_ : list (string * string)) =>
             @inr py_exn Aggregator.Dict od in
  let s' := snd (Aggregator.tank_iteration p "NC005030"%string Aggregator.agg_init) in
  Aggregator.stdout s' = Aggregator.stdout Aggregator.agg_init
                         ++ [Aggregator.processing_msg "NC005030"%string] /\
  Forall (fun f => length (Aggregator.get_field f s')
                   = (length (Aggregator.get_field f Aggregator.agg_init) + 1)%nat)
    [Aggregator.FLat; Aggregator.FLon; Aggregator.FSpd; Aggregator.FDir; Aggregator.FYr;
     Aggregator.FMon; Aggregator.FDay; Aggregator.FHr; Aggregator.FMin] /\
  Forall (fun f => length (Aggregator.get_field f s')
                   = (length (Aggregator.get_field f Aggregator.agg_init) + 2 * 1)%nat)
    [Aggregator.FPre; Aggregator.FTyp; Aggregator.FPQC].
Proof.
  intros od p.
  apply (ExtractionFacts.NC005030_iteration_misaligned p demo_get [[0; 95; 0; 1]] [[0.1; 0]]
           1%nat od Aggregator.agg_init).
  - reflexivity.
  - repeat constructor.
  - reflexivity.
  - repeat constructor.
  - repeat constructor.
  - vm_compute. reflexivity.
  - reflexivity.
Defined.

(** Witness of X11: one observation per variable, from the empty
    accumulators. *)
Lemma NC005080_iteration_aligned_witness :
  let p := fun (_ : string) (_ : string) (_ : list (string * string)) =>
             @inr py_exn Aggregator.Dict (process_NC005080 (Aggregator.outDict "NC005080") demo_get) in
  let s' := snd (Aggregator.tank_iteration p "NC005080"%string Aggregator.agg_init) in
  Aggregator.stdout s' = Aggregator.stdout Aggregator.agg_init
                         ++ [Aggregator.processing_msg "NC005080"%string] /\
  Forall (fun f => length (Aggregator.get_field f s')
                   = (length (Aggregator.get_field f Aggregator.agg_init) + 1)%nat)
    [Aggregator.FLat; Aggregator.FLon; Aggregator.FPre; Aggregator.FSpd; Aggregator.FDir;
     Aggregator.FYr; Aggregator.FMon; Aggregator.FDay; Aggregator.FHr; Aggregator.FMin;
     Aggregator.FTyp; Aggregator.FPQC].
Proof.
  intros p.
  apply (ExtractionFacts.NC005080_iteration_aligned p demo_get 1%nat Aggregator.agg_init).
  - repeat constructor.
  - reflexivity.
Defined.

End ExtractionWitnesses.
